(** * RestStop assistant: the chat query handler of [Chatbot.tsx]

    A shallow embedding of [processUserQuery] and [handleSendMessage] from
    [src/components/Chatbot.tsx], with the properties of the keyword chain,
    the cleanliness and distance filters and the map callback.

    Conventions of the embedding.
    - A JavaScript string is a [string]; each [ascii] is one code unit in
      the range U+0000..U+00FF (Latin-1).  Queries with code units beyond
      that range are outside the model.
    - A JavaScript number that holds a coordinate or a distance is a
      binary64 [float] with the primitive IEEE operations; an array length
      is a [nat]; a cleanliness score is a whole number, a [Z].
    - [processUserQuery] closes over the component state and the imported
      data helpers; here it receives them as two records.
    - The calls of the [onFindNearbyRestrooms] prop are recorded, in order,
      in the list [mapCalls]; an uncaught exception is the outcome [Threw]. *)

From Stdlib Require Import String Ascii List ZArith Bool Lia Floats DecimalString.
Import ListNotations.

Set Warnings "-inexact-float".

Local Open Scope list_scope.
Local Open Scope string_scope.

(** ** JavaScript primitives used by the handler *)

Module Js.

(** [String.prototype.toLowerCase] on one Latin-1 code unit: A..Z and the
    accented capitals U+00C0..U+00DE (without the multiplication sign
    U+00D7) move up by 32, everything else is kept. *)
Definition toLowerCaseUnit (c : ascii) : ascii :=
  let n := nat_of_ascii c in
  if ((65 <=? n) && (n <=? 90)
      || (192 <=? n) && (n <=? 222) && negb (n =? 215))%nat
  then ascii_of_nat (n + 32)
  else c.

Fixpoint toLowerCase (s : string) : string :=
  match s with
  | EmptyString => EmptyString
  | String c s' => String (toLowerCaseUnit c) (toLowerCase s')
  end.

(** [String.prototype.includes]: [needle] occurs in [s] at some offset. *)
Fixpoint includes (s needle : string) : bool :=
  if prefix needle s then true
  else match s with
       | EmptyString => false
       | String _ s' => includes s' needle
       end.

(** White space of [String.prototype.trim] within Latin-1: TAB, LF, VT,
    FF, CR, SPACE and NO-BREAK SPACE. *)
Definition isWhiteSpace (c : ascii) : bool :=
  let n := nat_of_ascii c in
  ((9 <=? n) && (n <=? 13) || (n =? 32) || (n =? 160))%nat.

Fixpoint trimStart (s : string) : string :=
  match s with
  | EmptyString => EmptyString
  | String c s' => if isWhiteSpace c then trimStart s' else s
  end.

(** Drops trailing white space: a unit is kept when it is not white space
    or when something is kept after it. *)
Fixpoint trimEnd (s : string) : string :=
  match s with
  | EmptyString => EmptyString
  | String c s' =>
      match trimEnd s' with
      | EmptyString => if isWhiteSpace c then EmptyString
                       else String c EmptyString
      | kept => String c kept
      end
  end.

Definition trim (s : string) : string := trimEnd (trimStart s).

(** Truthiness of a string: only the empty string is falsy. *)
Definition truthy (s : string) : bool :=
  match s with
  | EmptyString => false
  | String _ _ => true
  end.

(** Template-literal conversion of an array length. *)
Definition lengthToString (n : nat) : string :=
  NilEmpty.string_of_uint (Nat.to_uint n).

(** Template-literal conversion of a whole number. *)
Definition integerToString (z : Z) : string :=
  match z with
  | Z0 => "0"
  | Zpos p => NilEmpty.string_of_uint (Pos.to_uint p)
  | Zneg p => "-" ++ NilEmpty.string_of_uint (Pos.to_uint p)
  end.

(** [Math.pow(x, 2)]: the square, as the rounded binary64 product. *)
Definition Math_pow2 (x : float) : float := (x * x)%float.

Definition Math_sqrt (x : float) : float := PrimFloat.sqrt x.

(** The nearest integer to [x * 10^4] for a positive finite [m * 2^e],
    the larger one on a tie, as [Number.prototype.toFixed] chooses it. *)
Definition scaledBy10000 (m : positive) (e : Z) : Z :=
  let num := (Zpos m * 10000)%Z in
  if (0 <=? e)%Z then (num * 2 ^ e)%Z
  else ((2 * num + 2 ^ (- e)) / (2 * 2 ^ (- e)))%Z.

(** The last four digits of [n], padded with zeros on the left. *)
Definition fourDigits (n : Z) : string :=
  let d := integerToString (n mod 10000) in
  match String.length d with
  | 1%nat => "000" ++ d
  | 2%nat => "00" ++ d
  | 3%nat => "0" ++ d
  | _ => d
  end.

(** [x.toFixed(4)].  From 1e21 on JavaScript switches to the exponent
    notation of [Number::toString]; that notation is not reproduced here
    (a coordinate stays below 360 in magnitude). *)
Definition toFixed4 (x : float) : string :=
  match Prim2SF x with
  | S754_nan => "NaN"
  | S754_infinity false => "Infinity"
  | S754_infinity true => "-Infinity"
  | S754_zero _ => "0.0000"
  | S754_finite sign m e =>
      let n := scaledBy10000 m e in
      (if sign then "-" else EmptyString)
        ++ integerToString (n / 10000) ++ "." ++ fourDigits n
  end.

(** The exceptions the handler could raise. *)
Inductive Error : Type :=
| TypeError : string -> Error.

End Js.

(** ** Data model ([@/types]) *)

Record Location : Type := mkLocation {
  lat : float;
  lng : float
}.

Record Cleanliness : Type := mkCleanliness {
  score : Z;
  reports : nat
}.

Record Restroom : Type := mkRestroom {
  id : string;
  name : string;
  location : Location;
  cleanliness : Cleanliness;
  accessibility : bool;
  babyChanging : bool;
  genderNeutral : bool
}.

Inductive Sender : Type := user | bot.

(** [msgId] is the field [id] of the source's [ChatMessage]. *)
Record ChatMessage : Type := mkChatMessage {
  msgId : string;
  content : string;
  sender : Sender;
  timestamp : string
}.

(** Result of [getCleanlinessTier]: ['high' | 'medium' | 'low']. *)
Inductive CleanlinessTier : Type := high | medium | low.

(** The helpers imported from [@/data/restrooms] and [@/data/userRestrooms].
    Their bodies are not part of the component: the handler is stated for
    arbitrary ones.  The two getters without argument read a stored list and
    appear as that list. *)
Record DataSources : Type := mkDataSources {
  getAllRestrooms : list Restroom;
  getUserRestrooms : list Restroom;
  getRestroomsByLocation : float -> float -> float -> list Restroom;
  getNearbyRestrooms : float -> float -> float -> list Restroom;
  getCleanlinessTier : Z -> CleanlinessTier
}.

(** The part of the component state that the two handlers read or write. *)
Record ChatbotState : Type := mkChatbotState {
  message : string;
  messages : list ChatMessage;
  currentLocation : Location;
  hasLocationPermission : bool
}.

(** What one run of [processUserQuery] leaves behind: the text scheduled
    for display and the calls made to [onFindNearbyRestrooms]. *)
Record Reply : Type := mkReply {
  botResponse : string;
  mapCalls : list string
}.

Inductive Outcome : Type :=
| Returned : Reply -> Outcome
| Threw : Js.Error -> Outcome.


(** ** The handler ([processUserQuery], lines 113-260) *)

Section Handler.

Variable src : DataSources.
Variable st : ChatbotState.

(** [[...getAllRestrooms(), ...getUserRestrooms()]] *)
Definition allRestrooms : list Restroom :=
  (getAllRestrooms src ++ getUserRestrooms src)%list.

(** [nearbyRestrooms]: empty unless the location permission is held, then
    the two helper results for a radius of 2. *)
Definition nearbyRestrooms : list Restroom :=
  if hasLocationPermission st then
    (getRestroomsByLocation src
       (lat (currentLocation st)) (lng (currentLocation st)) 2
     ++ getNearbyRestrooms src
       (lat (currentLocation st)) (lng (currentLocation st)) 2)%list
  else [].

(** The inline [distance] of the four attribute branches. *)
Definition distance (r : Restroom) : float :=
  (Js.Math_sqrt
     (Js.Math_pow2 (lat (location r) - lat (currentLocation st))
      + Js.Math_pow2 (lng (location r) - lng (currentLocation st)))
   * 111)%float.

(** [distance <= 3] *)
Definition withinThreeKm (r : Restroom) : bool :=
  (distance r <=? 3)%float.

Definition cleanlinessText (cleanlinessRating : CleanlinessTier) : string :=
  match cleanlinessRating with
  | high => "highly rated"
  | medium => "moderately rated"
  | low => "lower rated"
  end.

(** Reading a property of [list[0]] when the array is empty. *)
Definition undefinedRead : Outcome :=
  Threw (Js.TypeError "Cannot read properties of undefined").

(** Lines 133-147: "restroom", "bathroom" or "toilet". *)
Definition nearbyBranch (query : string) : Outcome :=
  if (0 <? length nearbyRestrooms)%nat then
    let count := length nearbyRestrooms in
    match nth_error nearbyRestrooms 0 with
    | None => undefinedRead
    | Some closest =>
        let cleanlinessRating :=
          getCleanlinessTier src (score (cleanliness closest)) in
        Returned {|
          botResponse :=
            "I found " ++ Js.lengthToString count
            ++ " restrooms near you. The closest is " ++ name closest
            ++ ", which is " ++ cleanlinessText cleanlinessRating
            ++ " for cleanliness. Would you like to see them on the map?";
          mapCalls := [query] |}
    end
  else if negb (hasLocationPermission st) then
    Returned {|
      botResponse := "I'd like to find restrooms near you, but I need permission to access your location. Please enable location services and try again.";
      mapCalls := [] |}
  else
    Returned {|
      botResponse := "I couldn't find any restrooms in your immediate vicinity. Would you like me to expand the search radius?";
      mapCalls := [] |}.

(** Lines 149-168: "clean" or "hygienic". *)
Definition cleanRestrooms : list Restroom :=
  filter (fun r => (score (cleanliness r) >=? 85)%Z) allRestrooms.

Definition nearbyCleanRestrooms : list Restroom :=
  filter withinThreeKm cleanRestrooms.

Definition cleanBranch : Outcome :=
  if hasLocationPermission st && (0 <? length cleanRestrooms)%nat then
    if (0 <? length nearbyCleanRestrooms)%nat then
      match nth_error nearbyCleanRestrooms 0 with
      | None => undefinedRead
      | Some top =>
          Returned {|
            botResponse :=
              "I found " ++ Js.lengthToString (length nearbyCleanRestrooms)
              ++ " highly-rated clean restrooms near you. The top rated is "
              ++ name top ++ " with a cleanliness score of "
              ++ Js.integerToString (score (cleanliness top))
              ++ "/100. Would you like me to show them on the map?";
            mapCalls := ["clean restrooms"] |}
      end
    else
      Returned {|
        botResponse := "I couldn't find any highly-rated clean restrooms in your immediate vicinity. Would you like me to expand the search radius?";
        mapCalls := [] |}
  else
    Returned {|
      botResponse := "I can help you find clean restrooms, but I need your location to provide the best results. Please enable location services.";
      mapCalls := [] |}.

(** Lines 170-189: "accessible" or "disability". *)
Definition accessibleRestrooms : list Restroom :=
  filter (fun r => accessibility r) allRestrooms.

Definition nearbyAccessible : list Restroom :=
  filter withinThreeKm accessibleRestrooms.

Definition accessibleBranch : Outcome :=
  if hasLocationPermission st && (0 <? length accessibleRestrooms)%nat then
    if (0 <? length nearbyAccessible)%nat then
      Returned {|
        botResponse :=
          "I found " ++ Js.lengthToString (length nearbyAccessible)
          ++ " accessible restrooms near you. Would you like me to show them on the map?";
        mapCalls := ["accessible"] |}
    else
      Returned {|
        botResponse := "I couldn't find any accessible restrooms in your immediate vicinity. Would you like me to expand the search radius?";
        mapCalls := [] |}
  else
    Returned {|
      botResponse := "I can help you find accessible restrooms, but I need your location to provide the best results. Please enable location services.";
      mapCalls := [] |}.

(** Lines 191-210: "baby" or "changing". *)
Definition babyChangingRestrooms : list Restroom :=
  filter (fun r => babyChanging r) allRestrooms.

Definition nearbyBabyChanging : list Restroom :=
  filter withinThreeKm babyChangingRestrooms.

Definition babyChangingBranch : Outcome :=
  if hasLocationPermission st && (0 <? length babyChangingRestrooms)%nat then
    if (0 <? length nearbyBabyChanging)%nat then
      Returned {|
        botResponse :=
          "I found " ++ Js.lengthToString (length nearbyBabyChanging)
          ++ " restrooms with baby changing facilities near you. Would you like me to show them on the map?";
        mapCalls := ["baby changing"] |}
    else
      Returned {|
        botResponse := "I couldn't find any restrooms with baby changing facilities in your immediate vicinity. Would you like me to expand the search radius?";
        mapCalls := [] |}
  else
    Returned {|
      botResponse := "I can help you find restrooms with baby changing facilities, but I need your location to provide the best results.";
      mapCalls := [] |}.

(** Lines 212-231: "gender" or "neutral". *)
Definition genderNeutralRestrooms : list Restroom :=
  filter (fun r => genderNeutral r) allRestrooms.

Definition nearbyGenderNeutral : list Restroom :=
  filter withinThreeKm genderNeutralRestrooms.

Definition genderNeutralBranch : Outcome :=
  if hasLocationPermission st && (0 <? length genderNeutralRestrooms)%nat then
    if (0 <? length nearbyGenderNeutral)%nat then
      Returned {|
        botResponse :=
          "I found " ++ Js.lengthToString (length nearbyGenderNeutral)
          ++ " gender-neutral restrooms near you. Would you like me to show them on the map?";
        mapCalls := ["gender neutral"] |}
    else
      Returned {|
        botResponse := "I couldn't find any gender-neutral restrooms in your immediate vicinity. Would you like me to expand the search radius?";
        mapCalls := [] |}
  else
    Returned {|
      botResponse := "I can help you find gender-neutral restrooms, but I need your location to provide the best results.";
      mapCalls := [] |}.

(** Line 233: "help". *)
Definition helpBranch : Outcome :=
  Returned {|
    botResponse := "You can ask me to find restrooms near you, get information about specific features like cleanliness ratings, accessibility, baby changing facilities, or gender-neutral options. I can also help you navigate to the nearest restroom. What would you like to know?";
    mapCalls := [] |}.

(** Lines 235-239: "location" or "where am i". *)
Definition locationBranch : Outcome :=
  if hasLocationPermission st then
    Returned {|
      botResponse :=
        "You're currently located at approximately latitude "
        ++ Js.toFixed4 (lat (currentLocation st)) ++ " and longitude "
        ++ Js.toFixed4 (lng (currentLocation st))
        ++ ". This appears to be in the Coimbatore area. I can help find restrooms near this location.";
      mapCalls := [] |}
  else
    Returned {|
      botResponse := "I don't currently have access to your location. Please enable location services so I can provide better assistance.";
      mapCalls := [] |}.

(** Line 241: no keyword matched. *)
Definition fallbackBranch : Outcome :=
  Returned {|
    botResponse := "I'm here to help you find and locate restrooms. You can ask about nearby restrooms, clean facilities, accessible options, baby changing stations, or gender-neutral bathrooms. How can I assist you today?";
    mapCalls := [] |}.

(** The [if ... else if ...] chain of lines 130-242. *)
Definition processUserQuery (query : string) : Outcome :=
  let normalizedQuery := Js.toLowerCase query in
  if Js.includes normalizedQuery "restroom"
     || Js.includes normalizedQuery "bathroom"
     || Js.includes normalizedQuery "toilet"
  then nearbyBranch query
  else if Js.includes normalizedQuery "clean"
          || Js.includes normalizedQuery "hygienic"
  then cleanBranch
  else if Js.includes normalizedQuery "accessible"
          || Js.includes normalizedQuery "disability"
  then accessibleBranch
  else if Js.includes normalizedQuery "baby"
          || Js.includes normalizedQuery "changing"
  then babyChangingBranch
  else if Js.includes normalizedQuery "gender"
          || Js.includes normalizedQuery "neutral"
  then genderNeutralBranch
  else if Js.includes normalizedQuery "help"
  then helpBranch
  else if Js.includes normalizedQuery "location"
          || Js.includes normalizedQuery "where am i"
  then locationBranch
  else fallbackBranch.

(** ** [handleSendMessage] (lines 96-111)

    [arg] is the optional argument, defaulting to the state's [message];
    [now] and [isoNow] are the two clock reads.  The result is the state
    after the two setters and, unless the handler returned early, the
    outcome of [processUserQuery]. *)
Definition handleSendMessage (arg : option string) (now : Z) (isoNow : string)
  : ChatbotState * option Outcome :=
  let inputMessage := match arg with Some s => s | None => message st end in
  if negb (Js.truthy (Js.trim inputMessage)) then (st, None)
  else
    let userMessage := {|
      msgId := "user-" ++ Js.integerToString now;
      content := inputMessage;
      sender := user;
      timestamp := isoNow |} in
    ({| message := EmptyString;
        messages := (messages st ++ [userMessage])%list;
        currentLocation := currentLocation st;
        hasLocationPermission := hasLocationPermission st |},
     Some (processUserQuery inputMessage)).

(** The timer callback of lines 244-259: the reply is appended to the
    transcript. *)
Definition showBotMessage (text : string) (now : Z) (isoNow : string)
  : ChatbotState :=
  let botMessage := {|
    msgId := "bot-" ++ Js.integerToString now;
    content := text;
    sender := bot;
    timestamp := isoNow |} in
  {| message := message st;
     messages := (messages st ++ [botMessage])%list;
     currentLocation := currentLocation st;
     hasLocationPermission := hasLocationPermission st |}.

End Handler.

(** ** Intents

    The categories of the keyword chain, named as the specification names
    them, and the chain read as a classifier: the first test that succeeds
    on the lower-cased query decides. *)
Inductive Intent : Type :=
| NearbyAny
| Clean
| Accessible
| BabyChanging
| GenderNeutral
| Help
| LocationEcho
| Fallback.

(** [mentions query keyword]: the lower-cased query contains the keyword. *)
Definition mentions (query keyword : string) : bool :=
  Js.includes (Js.toLowerCase query) keyword.

Definition classify (query : string) : Intent :=
  if mentions query "restroom" || mentions query "bathroom"
     || mentions query "toilet" then NearbyAny
  else if mentions query "clean" || mentions query "hygienic" then Clean
  else if mentions query "accessible" || mentions query "disability"
  then Accessible
  else if mentions query "baby" || mentions query "changing" then BabyChanging
  else if mentions query "gender" || mentions query "neutral"
  then GenderNeutral
  else if mentions query "help" then Help
  else if mentions query "location" || mentions query "where am i"
  then LocationEcho
  else Fallback.

(** The branch of the chain that serves an intent. *)
Definition branchOf (src : DataSources) (st : ChatbotState) (query : string)
  (i : Intent) : Outcome :=
  match i with
  | NearbyAny => nearbyBranch src st query
  | Clean => cleanBranch src st
  | Accessible => accessibleBranch src st
  | BabyChanging => babyChangingBranch src st
  | GenderNeutral => genderNeutralBranch src st
  | Help => helpBranch
  | LocationEcho => locationBranch st
  | Fallback => fallbackBranch
  end.

(** The intents whose answer depends on the location. *)
Definition locationDependent (i : Intent) : bool :=
  match i with
  | NearbyAny | Clean | Accessible | BabyChanging | GenderNeutral => true
  | Help | LocationEcho | Fallback => false
  end.

(** The four attribute-specific intents, with the pieces of their branches:
    the attribute test of the first filter, the two filtered lists, the
    label given to the map and the two messages without a match. *)
Inductive Attribute : Type :=
| ByCleanliness
| ByAccessibility
| ByBabyChanging
| ByGenderNeutral.

Definition intentOf (a : Attribute) : Intent :=
  match a with
  | ByCleanliness => Clean
  | ByAccessibility => Accessible
  | ByBabyChanging => BabyChanging
  | ByGenderNeutral => GenderNeutral
  end.

Definition qualifies (a : Attribute) (r : Restroom) : bool :=
  match a with
  | ByCleanliness => (score (cleanliness r) >=? 85)%Z
  | ByAccessibility => accessibility r
  | ByBabyChanging => babyChanging r
  | ByGenderNeutral => genderNeutral r
  end.

Definition preFiltered (src : DataSources) (a : Attribute) : list Restroom :=
  match a with
  | ByCleanliness => cleanRestrooms src
  | ByAccessibility => accessibleRestrooms src
  | ByBabyChanging => babyChangingRestrooms src
  | ByGenderNeutral => genderNeutralRestrooms src
  end.

Definition nearbyOf (src : DataSources) (st : ChatbotState) (a : Attribute)
  : list Restroom :=
  match a with
  | ByCleanliness => nearbyCleanRestrooms src st
  | ByAccessibility => nearbyAccessible src st
  | ByBabyChanging => nearbyBabyChanging src st
  | ByGenderNeutral => nearbyGenderNeutral src st
  end.

Definition labelOf (a : Attribute) : string :=
  match a with
  | ByCleanliness => "clean restrooms"
  | ByAccessibility => "accessible"
  | ByBabyChanging => "baby changing"
  | ByGenderNeutral => "gender neutral"
  end.

Definition locationRequestOf (a : Attribute) : string :=
  match a with
  | ByCleanliness => "I can help you find clean restrooms, but I need your location to provide the best results. Please enable location services."
  | ByAccessibility => "I can help you find accessible restrooms, but I need your location to provide the best results. Please enable location services."
  | ByBabyChanging => "I can help you find restrooms with baby changing facilities, but I need your location to provide the best results."
  | ByGenderNeutral => "I can help you find gender-neutral restrooms, but I need your location to provide the best results."
  end.

Definition expandRadiusOf (a : Attribute) : string :=
  match a with
  | ByCleanliness => "I couldn't find any highly-rated clean restrooms in your immediate vicinity. Would you like me to expand the search radius?"
  | ByAccessibility => "I couldn't find any accessible restrooms in your immediate vicinity. Would you like me to expand the search radius?"
  | ByBabyChanging => "I couldn't find any restrooms with baby changing facilities in your immediate vicinity. Would you like me to expand the search radius?"
  | ByGenderNeutral => "I couldn't find any gender-neutral restrooms in your immediate vicinity. Would you like me to expand the search radius?"
  end.

(** The location-request message of each location-dependent intent. *)
Definition locationRequests : list (Intent * string) :=
  [ (NearbyAny, "I'd like to find restrooms near you, but I need permission to access your location. Please enable location services and try again.");
    (Clean, locationRequestOf ByCleanliness);
    (Accessible, locationRequestOf ByAccessibility);
    (BabyChanging, locationRequestOf ByBabyChanging);
    (GenderNeutral, locationRequestOf ByGenderNeutral) ].

(** A message that says the location is needed. *)
Definition asksForLocation (text : string) : bool :=
  Js.includes text "I need" && Js.includes text "your location".

(** A message that offers a wider search. *)
Definition asksToExpandRadius (text : string) : bool :=
  Js.includes text "Would you like me to expand the search radius?".

(** ** Scenarios

    The user location and the two records of the specification's scenarios:
    A with score 90 and B with score 70, each 0.009 degrees (about 1 km)
    away, neither with any amenity flag; and two records C and D about
    2.5 km away. *)
Module Scenario.

Definition userLocation : Location := {| lat := 11.0168; lng := 76.9558 |}.

Definition restroomA : Restroom := {|
  id := "a"; name := "A";
  location := {| lat := 11.0258; lng := 76.9558 |};
  cleanliness := {| score := 90; reports := 3 |};
  accessibility := false; babyChanging := false; genderNeutral := false |}.

Definition restroomB : Restroom := {|
  id := "b"; name := "B";
  location := {| lat := 11.0168; lng := 76.9648 |};
  cleanliness := {| score := 70; reports := 2 |};
  accessibility := false; babyChanging := false; genderNeutral := false |}.

Definition restroomC : Restroom := {|
  id := "c"; name := "C";
  location := {| lat := 11.0393; lng := 76.9558 |};
  cleanliness := {| score := 95; reports := 5 |};
  accessibility := true; babyChanging := false; genderNeutral := false |}.

Definition restroomD : Restroom := {|
  id := "d"; name := "D";
  location := {| lat := 11.0168; lng := 76.9783 |};
  cleanliness := {| score := 60; reports := 1 |};
  accessibility := false; babyChanging := true; genderNeutral := false |}.

(** Modelled from the spec: [getRestroomsByLocation] and
    [getNearbyRestrooms] are imported from [@/data/restrooms] and
    [@/data/userRestrooms], which are not among the sources.  The
    specification describes them as the radius search of the generic
    intent, with the flat-earth distance
    [sqrt(dlat^2 + dlng^2) * 111] of its step 4. *)
Definition withinRadius (stored : list Restroom) (lat0 lng0 radius : float)
  : list Restroom :=
  filter
    (fun r =>
       (Js.Math_sqrt
          (Js.Math_pow2 (lat (location r) - lat0)
           + Js.Math_pow2 (lng (location r) - lng0))
        * 111 <=? radius)%float)
    stored.

(** Modelled from the spec: [getCleanlinessTier] is imported from
    [@/data/restrooms], which is not among the sources.  The glossary
    describes a three-level classification derived from the score; the
    cut-offs (80 and 50) stand in for the unknown ones and no theorem
    below depends on them. *)
Definition tierOf (s : Z) : CleanlinessTier :=
  if (80 <=? s)%Z then high else if (50 <=? s)%Z then medium else low.

(** Data sources over a built-in catalogue, with no user submissions. *)
Definition sources (catalogue : list Restroom) : DataSources := {|
  getAllRestrooms := catalogue;
  getUserRestrooms := [];
  getRestroomsByLocation := withinRadius catalogue;
  getNearbyRestrooms := withinRadius [];
  getCleanlinessTier := tierOf |}.

Definition located : ChatbotState := {|
  message := EmptyString;
  messages := [];
  currentLocation := userLocation;
  hasLocationPermission := true |}.

Definition unlocated : ChatbotState := {|
  message := EmptyString;
  messages := [];
  currentLocation := userLocation;
  hasLocationPermission := false |}.

End Scenario.

(** ** The rest of the component

    The state set-up, the geolocation and speech callbacks of the mount
    effect (lines 20-88), the microphone button (lines 262-284) and the way
    the handlers follow one another as events arrive. *)

(** The first element of the transcript (lines 21-26). *)
Definition welcomeMessage (mountTime : string) : ChatMessage := {|
  msgId := "welcome";
  content := "Hello! I'm your RestStop assistant. How can I help you find restrooms today?";
  sender := bot;
  timestamp := mountTime |}.

(** The state of the first render: the [useState] defaults of lines 19-31.
    [defaultLocation] is imported from [@/data/restrooms]. *)
Definition initialState (defaultLocation : Location) (mountTime : string)
  : ChatbotState := {|
  message := EmptyString;
  messages := [welcomeMessage mountTime];
  currentLocation := defaultLocation;
  hasLocationPermission := false |}.

(** Success callback of [getCurrentPosition] (lines 40-46). *)
Definition onPosition (st : ChatbotState) (latitude longitude : float)
  : ChatbotState := {|
  message := message st;
  messages := messages st;
  currentLocation := {| lat := latitude; lng := longitude |};
  hasLocationPermission := true |}.

(** [onChange] of the input field (line 338): [setMessage(e.target.value)]. *)
Definition onInputChange (st : ChatbotState) (value : string) : ChatbotState := {|
  message := value;
  messages := messages st;
  currentLocation := currentLocation st;
  hasLocationPermission := hasLocationPermission st |}.

(** What the handlers show or do outside the component state. *)
Inductive Effect : Type :=
| ToastError : string -> Effect
| ToastInfo : string -> Effect
| ConsoleError : string -> Effect
| RecognitionStart : Effect
| RecognitionAbort : Effect.

(** Error callback of [getCurrentPosition] (lines 47-50): the state is not
    touched. *)
Definition onPositionError (st : ChatbotState) : ChatbotState * list Effect :=
  (st, [ConsoleError "Error getting location:";
        ToastError "Location access denied. Some features may be limited."]).

(** The microphone: [isListening] and whether [recognitionRef.current]
    holds a recognizer (it does when the browser has the speech API). *)
Record VoiceState : Type := mkVoiceState {
  isListening : bool;
  recognitionRef : bool
}.

(** [toggleListening] (lines 262-284); [startThrows] says whether
    [recognitionRef.current.start()] raises. *)
Definition toggleListening (startThrows : bool) (v : VoiceState)
  : VoiceState * list Effect :=
  if isListening v then
    ({| isListening := false; recognitionRef := recognitionRef v |},
     if recognitionRef v then [RecognitionAbort] else [])
  else if negb (recognitionRef v) then
    (v, [ToastError "Speech recognition is not supported in your browser."])
  else if startThrows then
    ({| isListening := false; recognitionRef := recognitionRef v |},
     [RecognitionStart;
      ConsoleError "Speech recognition error:";
      ToastError "Could not start speech recognition. Please try again."])
  else
    ({| isListening := true; recognitionRef := recognitionRef v |},
     [RecognitionStart; ToastInfo "Listening... Speak now."]).

(** [onerror] of the recognizer (lines 72-76). *)
Definition onRecognitionError (v : VoiceState) : VoiceState * list Effect :=
  ({| isListening := false; recognitionRef := recognitionRef v |},
   [ConsoleError "Speech recognition error";
    ToastError "Voice recognition error. Please try again."]).

(** [onend] of the recognizer (lines 78-80). *)
Definition onRecognitionEnd (v : VoiceState) : VoiceState :=
  {| isListening := false; recognitionRef := recognitionRef v |}.

(** [onresult] of the recognizer (lines 62-70), in two steps: at once
    [setMessage(transcript)]; half a second later
    [handleSendMessage(transcript)] and [setIsListening(false)].

    The callback is installed by the effect with the empty dependency list,
    so the [handleSendMessage] it calls is the one of the first render: its
    [processUserQuery] reads [hasLocationPermission] and [currentLocation]
    of that render, [mount], while the setters with an updater function
    ([setMessages(prev => ...)]) act on the state of the moment, [st]. *)
Definition onResult (st : ChatbotState) (transcript : string) : ChatbotState :=
  onInputChange st transcript.

Definition onResultTimer (src : DataSources) (mount st : ChatbotState)
  (v : VoiceState) (transcript : string) (now : Z) (isoNow : string)
  : ChatbotState * VoiceState * option Outcome :=
  let v' := {| isListening := false; recognitionRef := recognitionRef v |} in
  if negb (Js.truthy (Js.trim transcript)) then (st, v', None)
  else
    let userMessage := {|
      msgId := "user-" ++ Js.integerToString now;
      content := transcript;
      sender := user;
      timestamp := isoNow |} in
    ({| message := EmptyString;
        messages := (messages st ++ [userMessage])%list;
        currentLocation := currentLocation st;
        hasLocationPermission := hasLocationPermission st |},
     v',
     Some (processUserQuery src mount transcript)).

(** Events of the microphone. *)
Inductive VoiceEvent : Type :=
| MicClicked (startThrows : bool)
| RecognitionFailed
| RecognitionEnded
| ResultTimerFired.

Definition voiceStep (v : VoiceState) (e : VoiceEvent)
  : VoiceState * list Effect :=
  match e with
  | MicClicked startThrows => toggleListening startThrows v
  | RecognitionFailed => onRecognitionError v
  | RecognitionEnded => (onRecognitionEnd v, [])
  | ResultTimerFired =>
      ({| isListening := false; recognitionRef := recognitionRef v |}, [])
  end.

Fixpoint voiceRun (v : VoiceState) (events : list VoiceEvent)
  : VoiceState * list Effect :=
  match events with
  | [] => (v, [])
  | e :: rest =>
      let '(v1, out1) := voiceStep v e in
      let '(v2, out2) := voiceRun v1 rest in
      (v2, (out1 ++ out2)%list)
  end.

(** *** The typed conversation as a sequence of events

    Beside the state, the replies whose one-second timer has not fired yet
    (the timers have equal delays and fire in the order they were set) and
    the calls made to [onFindNearbyRestrooms] so far. *)
Record Conversation : Type := mkConversation {
  chat : ChatbotState;
  pendingReplies : list string;
  mapLog : list string
}.

Inductive Event : Type :=
| PositionFound (latitude longitude : float)
| PositionDenied
| InputChanged (value : string)
| FormSubmitted (now : Z) (isoNow : string)
| ReplyTimerFired (now : Z) (isoNow : string).

Definition step (src : DataSources) (c : Conversation) (e : Event)
  : Conversation :=
  match e with
  | PositionFound latitude longitude =>
      {| chat := onPosition (chat c) latitude longitude;
         pendingReplies := pendingReplies c;
         mapLog := mapLog c |}
  | PositionDenied =>
      {| chat := fst (onPositionError (chat c));
         pendingReplies := pendingReplies c;
         mapLog := mapLog c |}
  | InputChanged value =>
      {| chat := onInputChange (chat c) value;
         pendingReplies := pendingReplies c;
         mapLog := mapLog c |}
  | FormSubmitted now isoNow =>
      match handleSendMessage src (chat c) None now isoNow with
      | (_, None) => c
      | (st', Some (Returned reply)) =>
          {| chat := st';
             pendingReplies := (pendingReplies c ++ [botResponse reply])%list;
             mapLog := (mapLog c ++ mapCalls reply)%list |}
      | (st', Some (Threw _)) =>
          {| chat := st';
             pendingReplies := pendingReplies c;
             mapLog := mapLog c |}
      end
  | ReplyTimerFired now isoNow =>
      match pendingReplies c with
      | [] => c
      | text :: rest =>
          {| chat := showBotMessage (chat c) text now isoNow;
             pendingReplies := rest;
             mapLog := mapLog c |}
      end
  end.

Definition run (src : DataSources) (c : Conversation) (events : list Event)
  : Conversation :=
  fold_left (step src) events c.

(** The number of messages of one sender in a transcript. *)
Definition sentBy (who : Sender) (transcript : list ChatMessage) : nat :=
  length (filter (fun m => match who, sender m with
                           | user, user | bot, bot => true
                           | _, _ => false
                           end) transcript).

(** A string of white space only (the empty string included). *)
Fixpoint allWhiteSpace (s : string) : bool :=
  match s with
  | EmptyString => true
  | String c s' => Js.isWhiteSpace c && allWhiteSpace s'
  end.

(** An event that brings a position. *)
Definition bringsPosition (e : Event) : bool :=
  match e with
  | PositionFound _ _ => true
  | _ => false
  end.

(** * Properties *)

(** ** Strings *)

Lemma prefix_append (needle rest : string) :
  prefix needle (needle ++ rest) = true.
Proof.
  induction needle as [|c needle IH]; simpl.
  - destruct rest; reflexivity.
  - destruct (ascii_dec c c) as [_|ne]; [exact IH | now elim ne].
Qed.

Lemma prefix_split (needle s : string) :
  prefix needle s = true -> exists rest, s = needle ++ rest.
Proof.
  revert s; induction needle as [|c needle IH]; intros s H.
  - exists s; reflexivity.
  - destruct s as [|d s]; simpl in H; [discriminate|].
    destruct (ascii_dec c d) as [->|]; [|discriminate].
    destruct (IH s H) as [rest ->]. exists rest; reflexivity.
Qed.

Lemma includes_unfold (s needle : string) :
  Js.includes s needle =
  if prefix needle s then true
  else match s with
       | EmptyString => false
       | String _ s' => Js.includes s' needle
       end.
Proof. destruct s; reflexivity. Qed.

(** [includes] is the substring test: the needle sits between a front part
    and a rest. *)
Lemma includes_occurs (s needle : string) :
  Js.includes s needle = true <->
  exists front rest, s = front ++ needle ++ rest.
Proof.
  split.
  - induction s as [|c s IH]; rewrite includes_unfold;
      match goal with |- context [prefix ?n ?t] =>
        destruct (prefix n t) eqn:P end;
      try discriminate.
    + intros _. apply prefix_split in P. destruct P as [rest P].
      exists EmptyString, rest; exact P.
    + intros _. apply prefix_split in P. destruct P as [rest P].
      exists EmptyString, rest; exact P.
    + intros H. destruct (IH H) as (front & rest & ->).
      exists (String c front), rest; reflexivity.
  - intros (front & rest & ->).
    induction front as [|c front IH]; rewrite includes_unfold.
    + simpl append at 1. rewrite prefix_append. reflexivity.
    + destruct (prefix needle (String c front ++ needle ++ rest));
        [reflexivity | exact IH].
Qed.

(** [mentions]: the keyword is a substring of the lower-cased query. *)
Lemma mentions_occurs (query keyword : string) :
  mentions query keyword = true <->
  exists front rest, Js.toLowerCase query = front ++ keyword ++ rest.
Proof. unfold mentions. apply includes_occurs. Qed.

(** ** Lists *)

Lemma empty_nil {A : Type} (l : list A) :
  (0 <? length l)%nat = false -> l = [].
Proof. destruct l; simpl; [reflexivity | discriminate]. Qed.

(** The head of a filtered list is the first element of the list that
    passes the test. *)
Lemma filter_head {A : Type} (f : A -> bool) (l : list A) (c : A)
  (rest : list A) :
  filter f l = c :: rest ->
  exists before after,
    l = (before ++ c :: after)%list
    /\ Forall (fun x => f x = false) before
    /\ f c = true
    /\ rest = filter f after.
Proof.
  induction l as [|x l IH]; simpl; [discriminate|].
  destruct (f x) eqn:Fx.
  - intros E; injection E as -> <-.
    exists [], l; repeat split; auto.
  - intros E. destruct (IH E) as (before & after & -> & Hb & Hc & Hr).
    exists (x :: before), after; repeat split; auto.
Qed.

(** ** The chain and its branches *)

Lemma processUserQuery_classify (src : DataSources) (st : ChatbotState)
  (query : string) :
  processUserQuery src st query = branchOf src st query (classify query).
Proof.
  unfold processUserQuery, classify, mentions.
  repeat match goal with
         | |- context [if ?b then _ else _] => destruct b
         end; reflexivity.
Qed.

Lemma preFiltered_filter (src : DataSources) (a : Attribute) :
  preFiltered src a = filter (qualifies a) (allRestrooms src).
Proof. destruct a; reflexivity. Qed.

Lemma nearbyOf_filter (src : DataSources) (st : ChatbotState) (a : Attribute) :
  nearbyOf src st a = filter (withinThreeKm st) (preFiltered src a).
Proof. destruct a; reflexivity. Qed.

Lemma nearbyBranch_found (src : DataSources) (st : ChatbotState)
  (query : string) (c : Restroom) (rest : list Restroom) :
  nearbyRestrooms src st = c :: rest ->
  nearbyBranch src st query =
  Returned {|
    botResponse :=
      "I found " ++ Js.lengthToString (S (length rest))
      ++ " restrooms near you. The closest is " ++ name c
      ++ ", which is "
      ++ cleanlinessText (getCleanlinessTier src (score (cleanliness c)))
      ++ " for cleanliness. Would you like to see them on the map?";
    mapCalls := [query] |}.
Proof. intros E. unfold nearbyBranch. rewrite E. reflexivity. Qed.

Lemma nearbyBranch_none (src : DataSources) (st : ChatbotState)
  (query : string) :
  nearbyRestrooms src st = [] ->
  nearbyBranch src st query =
  Returned {|
    botResponse :=
      if hasLocationPermission st
      then "I couldn't find any restrooms in your immediate vicinity. Would you like me to expand the search radius?"
      else "I'd like to find restrooms near you, but I need permission to access your location. Please enable location services and try again.";
    mapCalls := [] |}.
Proof.
  intros E. unfold nearbyBranch. rewrite E.
  destruct (hasLocationPermission st); reflexivity.
Qed.

Lemma cleanBranch_found (src : DataSources) (st : ChatbotState)
  (c : Restroom) (rest : list Restroom) :
  hasLocationPermission st = true ->
  nearbyCleanRestrooms src st = c :: rest ->
  cleanBranch src st =
  Returned {|
    botResponse :=
      "I found " ++ Js.lengthToString (S (length rest))
      ++ " highly-rated clean restrooms near you. The top rated is "
      ++ name c ++ " with a cleanliness score of "
      ++ Js.integerToString (score (cleanliness c))
      ++ "/100. Would you like me to show them on the map?";
    mapCalls := ["clean restrooms"] |}.
Proof.
  intros L E. unfold cleanBranch. rewrite L, E.
  destruct (cleanRestrooms src) as [|x xs] eqn:P.
  - unfold nearbyCleanRestrooms in E. rewrite P in E. discriminate.
  - reflexivity.
Qed.

(** Without the permission, or without any record passing the attribute
    test, an attribute branch asks for the location. *)
Lemma attribute_location_request (src : DataSources) (st : ChatbotState)
  (query : string) (a : Attribute) :
  hasLocationPermission st && (0 <? length (preFiltered src a))%nat = false ->
  branchOf src st query (intentOf a) =
  Returned {| botResponse := locationRequestOf a; mapCalls := [] |}.
Proof.
  intros H. destruct a; simpl in *;
    unfold cleanBranch, accessibleBranch, babyChangingBranch,
      genderNeutralBranch; rewrite H; reflexivity.
Qed.

(** With the permission and a record passing the attribute test, but none
    of them within 3 km, an attribute branch offers a wider search. *)
Lemma attribute_expand_radius (src : DataSources) (st : ChatbotState)
  (query : string) (a : Attribute) :
  hasLocationPermission st && (0 <? length (preFiltered src a))%nat = true ->
  nearbyOf src st a = [] ->
  branchOf src st query (intentOf a) =
  Returned {| botResponse := expandRadiusOf a; mapCalls := [] |}.
Proof.
  intros H E. destruct a; simpl in *;
    unfold cleanBranch, accessibleBranch, babyChangingBranch,
      genderNeutralBranch; rewrite H, E; reflexivity.
Qed.

(** With the permission and a match within 3 km, an attribute branch
    reports what it found and calls the map with the branch's label. *)
Lemma attribute_found (src : DataSources) (st : ChatbotState)
  (query : string) (a : Attribute) (c : Restroom) (rest : list Restroom) :
  hasLocationPermission st = true ->
  nearbyOf src st a = c :: rest ->
  exists text,
    branchOf src st query (intentOf a) =
    Returned {| botResponse := text; mapCalls := [labelOf a] |}
    /\ prefix "I found " text = true.
Proof.
  intros L E.
  assert (P : (0 <? length (preFiltered src a))%nat = true).
  { rewrite nearbyOf_filter in E.
    destruct (preFiltered src a); [discriminate | reflexivity]. }
  destruct a; simpl in *;
    unfold cleanBranch, accessibleBranch, babyChangingBranch,
      genderNeutralBranch; rewrite L, P, E;
    cbn [andb Nat.ltb Nat.leb length nth_error];
    eexists; (split; [reflexivity | apply prefix_append]).
Qed.

(** The three ways an attribute branch can end. *)
Lemma attribute_cases (src : DataSources) (st : ChatbotState)
  (query : string) (a : Attribute) :
  (hasLocationPermission st && (0 <? length (preFiltered src a))%nat = false
   /\ branchOf src st query (intentOf a) =
      Returned {| botResponse := locationRequestOf a; mapCalls := [] |})
  \/ (hasLocationPermission st = true
      /\ preFiltered src a <> []
      /\ nearbyOf src st a = []
      /\ branchOf src st query (intentOf a) =
         Returned {| botResponse := expandRadiusOf a; mapCalls := [] |})
  \/ (hasLocationPermission st = true
      /\ nearbyOf src st a <> []
      /\ exists text,
           branchOf src st query (intentOf a) =
           Returned {| botResponse := text; mapCalls := [labelOf a] |}
           /\ prefix "I found " text = true).
Proof.
  destruct (hasLocationPermission st && (0 <? length (preFiltered src a))%nat)
    eqn:G.
  - right. apply andb_true_iff in G as G'. destruct G' as [L P].
    destruct (nearbyOf src st a) as [|c rest] eqn:E.
    + left. repeat split; auto.
      * intros N. rewrite N in P. discriminate.
      * now apply attribute_expand_radius.
    + right. repeat split; auto; [discriminate|].
      now apply attribute_found with (c := c) (rest := rest).
  - left. split; [reflexivity|]. now apply attribute_location_request.
Qed.

Lemma found_is_not_expand (a : Attribute) :
  prefix "I found " (expandRadiusOf a) = false
  /\ prefix "I found " (locationRequestOf a) = false.
Proof. destruct a; split; reflexivity. Qed.

(** The handler always returns: no branch reads a property of a missing
    array element. *)
Lemma processUserQuery_returns (src : DataSources) (st : ChatbotState)
  (query : string) :
  exists reply, processUserQuery src st query = Returned reply.
Proof.
  rewrite processUserQuery_classify.
  destruct (classify query); simpl;
    try (cbv [helpBranch fallbackBranch locationBranch];
         destruct (hasLocationPermission st); eexists; reflexivity).
  - destruct (nearbyRestrooms src st) as [|c rest] eqn:E.
    + rewrite nearbyBranch_none by exact E. eexists; reflexivity.
    + rewrite nearbyBranch_found with (c := c) (rest := rest) by exact E.
      eexists; reflexivity.
  - destruct (attribute_cases src st query ByCleanliness)
      as [[_ H]|[(_ & _ & _ & H)|(_ & _ & t & H & _)]];
      simpl in H; rewrite H; eexists; reflexivity.
  - destruct (attribute_cases src st query ByAccessibility)
      as [[_ H]|[(_ & _ & _ & H)|(_ & _ & t & H & _)]];
      simpl in H; rewrite H; eexists; reflexivity.
  - destruct (attribute_cases src st query ByBabyChanging)
      as [[_ H]|[(_ & _ & _ & H)|(_ & _ & t & H & _)]];
      simpl in H; rewrite H; eexists; reflexivity.
  - destruct (attribute_cases src st query ByGenderNeutral)
      as [[_ H]|[(_ & _ & _ & H)|(_ & _ & t & H & _)]];
      simpl in H; rewrite H; eexists; reflexivity.
Qed.

(** A blank input never reaches [processUserQuery]: [handleSendMessage]
    returns before it, and the state is left as it was. *)
Lemma handleSendMessage_blank (src : DataSources) (st : ChatbotState)
  (input : string) (now : Z) (isoNow : string) :
  Js.trim input = EmptyString ->
  handleSendMessage src st (Some input) now isoNow = (st, None).
Proof. intros H. unfold handleSendMessage. rewrite H. reflexivity. Qed.

(** Any other input is appended to the transcript and classified. *)
Lemma handleSendMessage_sends (src : DataSources) (st : ChatbotState)
  (input : string) (now : Z) (isoNow : string) :
  Js.trim input <> EmptyString ->
  snd (handleSendMessage src st (Some input) now isoNow)
  = Some (processUserQuery src st input).
Proof.
  intros H. unfold handleSendMessage.
  destruct (Js.trim input); [now elim H | reflexivity].
Qed.

(** ** Claims *)

(** C9: for the empty query string the handler takes the branch of the
    final [else]: it returns the static help text, raises nothing and does
    not call the map. *)
Theorem empty_query_falls_back (src : DataSources) (st : ChatbotState) :
  processUserQuery src st EmptyString = fallbackBranch
  /\ classify EmptyString = Fallback
  /\ processUserQuery src st EmptyString =
     Returned {|
       botResponse := "I'm here to help you find and locate restrooms. You can ask about nearby restrooms, clean facilities, accessible options, baby changing stations, or gender-neutral bathrooms. How can I assist you today?";
       mapCalls := [] |}.
Proof. repeat split. Qed.

(** C10: a run of the handler calls [onFindNearbyRestrooms] at most once;
    the argument is the raw query in the generic nearby branch and
    otherwise the literal label of the attribute branch that ran, one of
    "clean restrooms", "accessible", "baby changing" and "gender neutral". *)
Theorem map_call_labels (src : DataSources) (st : ChatbotState)
  (query : string) :
  exists reply,
    processUserQuery src st query = Returned reply
    /\ (length (mapCalls reply) <= 1)%nat
    /\ forall label, In label (mapCalls reply) ->
         (classify query = NearbyAny /\ label = query)
         \/ (exists a, classify query = intentOf a /\ label = labelOf a
                       /\ In label ["clean restrooms"; "accessible";
                                    "baby changing"; "gender neutral"]).
Proof.
  rewrite processUserQuery_classify.
  assert (A : forall a, classify query = intentOf a ->
    exists reply, branchOf src st query (intentOf a) = Returned reply
    /\ (length (mapCalls reply) <= 1)%nat
    /\ forall label, In label (mapCalls reply) ->
         (classify query = NearbyAny /\ label = query)
         \/ (exists a, classify query = intentOf a /\ label = labelOf a
                       /\ In label ["clean restrooms"; "accessible";
                                    "baby changing"; "gender neutral"])).
  { intros a Ca.
    destruct (attribute_cases src st query a)
      as [[_ H]|[(_ & _ & _ & H)|(_ & _ & t & H & _)]];
      rewrite H; eexists; (split; [reflexivity|]); simpl; split;
      try lia; try (intros label F; contradiction).
    intros label [<-|[]]. right. exists a. repeat split; auto.
    destruct a; simpl; auto. }
  destruct (classify query) eqn:C;
    try (apply (A ByCleanliness); reflexivity);
    try (apply (A ByAccessibility); reflexivity);
    try (apply (A ByBabyChanging); reflexivity);
    try (apply (A ByGenderNeutral); reflexivity);
    simpl;
    try (cbv [helpBranch fallbackBranch locationBranch];
         destruct (hasLocationPermission st); eexists;
         (split; [reflexivity|]); simpl;
         (split; [lia | intros label F; contradiction])).
  destruct (nearbyRestrooms src st) as [|c rest] eqn:E.
  - rewrite nearbyBranch_none by exact E. eexists.
    split; [reflexivity|]. simpl. split; [lia | intros label []].
  - rewrite nearbyBranch_found with (c := c) (rest := rest) by exact E.
    eexists. split; [reflexivity|]. simpl. split; [lia|].
    intros label [<-|[]]. left. split; reflexivity.
Qed.

(** C4: without the location permission, a query of any location-dependent
    intent (generic nearby, clean, accessible, baby-changing,
    gender-neutral) gets the location-request message of its branch,
    whatever the data sources hold, and the map is not called. *)
Theorem no_location_no_trigger (src : DataSources) (st : ChatbotState)
  (query : string) :
  hasLocationPermission st = false ->
  locationDependent (classify query) = true ->
  exists text,
    processUserQuery src st query =
    Returned {| botResponse := text; mapCalls := [] |}
    /\ In (classify query, text) locationRequests
    /\ asksForLocation text = true.
Proof.
  intros L D. rewrite processUserQuery_classify.
  assert (A : forall a, classify query = intentOf a ->
    exists text,
      branchOf src st query (intentOf a) =
      Returned {| botResponse := text; mapCalls := [] |}
      /\ In (intentOf a, text) locationRequests
      /\ asksForLocation text = true).
  { intros a _. exists (locationRequestOf a). split.
    - apply attribute_location_request. rewrite L. reflexivity.
    - destruct a; split; simpl; auto 6. }
  destruct (classify query) eqn:C; try discriminate.
  - simpl. rewrite nearbyBranch_none
      by (unfold nearbyRestrooms; rewrite L; reflexivity).
    rewrite L. eexists. split; [reflexivity|].
    split; [left; reflexivity | reflexivity].
  - apply (A ByCleanliness); reflexivity.
  - apply (A ByAccessibility); reflexivity.
  - apply (A ByBabyChanging); reflexivity.
  - apply (A ByGenderNeutral); reflexivity.
Qed.

Lemma no_location_no_trigger_witness :
  hasLocationPermission Scenario.unlocated = false
  /\ locationDependent (classify "Where can I find a clean restroom?") = true
  /\ exists text,
       processUserQuery
         (Scenario.sources [Scenario.restroomA; Scenario.restroomB])
         Scenario.unlocated "Where can I find a clean restroom?" =
       Returned {| botResponse := text; mapCalls := [] |}
       /\ In (classify "Where can I find a clean restroom?", text)
            locationRequests
       /\ asksForLocation text = true.
Proof.
  split; [reflexivity|]. split; [reflexivity|].
  apply (no_location_no_trigger
           (Scenario.sources [Scenario.restroomA; Scenario.restroomB])
           Scenario.unlocated "Where can I find a clean restroom?");
    reflexivity.
Defined.

(** C6: in an attribute branch (clean, accessible, baby-changing,
    gender-neutral) with the location permission held, an empty attribute
    pre-filter gives the location-request message of the branch and not
    the expand-radius one, with no map call; the expand-radius message is
    the reply exactly when the pre-filter is non-empty and the 3 km filter
    leaves nothing of it. *)
Theorem empty_prefilter_asks_for_location (src : DataSources)
  (st : ChatbotState) (query : string) (a : Attribute) :
  classify query = intentOf a ->
  hasLocationPermission st = true ->
  (preFiltered src a = [] ->
   processUserQuery src st query =
   Returned {| botResponse := locationRequestOf a; mapCalls := [] |})
  /\ asksForLocation (locationRequestOf a) = true
  /\ asksToExpandRadius (locationRequestOf a) = false
  /\ asksToExpandRadius (expandRadiusOf a) = true
  /\ (forall reply,
        processUserQuery src st query = Returned reply ->
        (botResponse reply = expandRadiusOf a
         <-> preFiltered src a <> [] /\ nearbyOf src st a = [])).
Proof.
  intros C L. rewrite processUserQuery_classify, C.
  split; [|split; [|split; [|split]]]; try (destruct a; reflexivity).
  - intros P. apply attribute_location_request. rewrite P, L. reflexivity.
  - intros reply R.
    destruct (attribute_cases src st query a)
      as [[G H]|[(_ & P & E & H)|(_ & N & t & H & F)]];
      rewrite H in R; injection R as <-; simpl.
    + rewrite L in G. simpl in G. apply empty_nil in G. split.
      * destruct a; discriminate.
      * intros [P _]. now elim P.
    + split; auto.
    + split.
      * intros T. rewrite T in F.
        destruct (found_is_not_expand a) as [X _]. congruence.
      * intros [_ E]. now elim N.
Qed.

Lemma empty_prefilter_asks_for_location_witness :
  processUserQuery
    (Scenario.sources [Scenario.restroomA; Scenario.restroomB])
    Scenario.located "Is there an accessible one?" =
  Returned {|
    botResponse := "I can help you find accessible restrooms, but I need your location to provide the best results. Please enable location services.";
    mapCalls := [] |}.
Proof.
  apply (proj1 (empty_prefilter_asks_for_location
                  (Scenario.sources [Scenario.restroomA; Scenario.restroomB])
                  Scenario.located "Is there an accessible one?"
                  ByAccessibility eq_refl eq_refl)).
  reflexivity.
Defined.

Lemma filter_twice {A : Type} (f g : A -> bool) (l : list A) :
  filter f (filter g l) = filter (fun x => g x && f x) l.
Proof.
  induction l as [|x l IH]; simpl; [reflexivity|].
  destruct (g x); simpl; [destruct (f x)|]; rewrite IH; reflexivity.
Qed.

(** C7: when the generic nearby branch or the clean branch has a non-empty
    filtered list, the reply gives the length of that list and names its
    first element, in the order the list already has, and the map is
    called.  For the clean branch the first element is the first record of
    the stored list that passes both tests: nothing is sorted. *)
Theorem first_match_is_reported (src : DataSources) (st : ChatbotState)
  (query : string) (c : Restroom) (rest : list Restroom) :
  (classify query = NearbyAny ->
   nearbyRestrooms src st = c :: rest ->
   processUserQuery src st query =
   Returned {|
     botResponse :=
       "I found " ++ Js.lengthToString (length (c :: rest))
       ++ " restrooms near you. The closest is " ++ name c
       ++ ", which is "
       ++ cleanlinessText (getCleanlinessTier src (score (cleanliness c)))
       ++ " for cleanliness. Would you like to see them on the map?";
     mapCalls := [query] |}
   /\ (getRestroomsByLocation src
         (lat (currentLocation st)) (lng (currentLocation st)) 2
       ++ getNearbyRestrooms src
         (lat (currentLocation st)) (lng (currentLocation st)) 2)%list
      = c :: rest)
  /\ (classify query = Clean ->
      hasLocationPermission st = true ->
      nearbyCleanRestrooms src st = c :: rest ->
      processUserQuery src st query =
      Returned {|
        botResponse :=
          "I found " ++ Js.lengthToString (length (c :: rest))
          ++ " highly-rated clean restrooms near you. The top rated is "
          ++ name c ++ " with a cleanliness score of "
          ++ Js.integerToString (score (cleanliness c))
          ++ "/100. Would you like me to show them on the map?";
        mapCalls := ["clean restrooms"] |}
      /\ exists before after,
           allRestrooms src = (before ++ c :: after)%list
           /\ Forall
                (fun r => (score (cleanliness r) >=? 85)%Z
                          && withinThreeKm st r = false) before).
Proof.
  split.
  - intros C E. rewrite processUserQuery_classify, C. simpl. split.
    + now apply nearbyBranch_found.
    + unfold nearbyRestrooms in E.
      destruct (hasLocationPermission st); [exact E | discriminate].
  - intros C L E. rewrite processUserQuery_classify, C. simpl. split.
    + now apply cleanBranch_found.
    + unfold nearbyCleanRestrooms, cleanRestrooms in E.
      rewrite filter_twice in E.
      destruct (filter_head _ _ _ _ E) as (before & after & H & B & _).
      exists before, after. split; assumption.
Qed.

Lemma first_match_is_reported_witness :
  processUserQuery
    (Scenario.sources [Scenario.restroomB; Scenario.restroomA])
    Scenario.located "toilet" =
  Returned {|
    botResponse := "I found 2 restrooms near you. The closest is B, which is moderately rated for cleanliness. Would you like to see them on the map?";
    mapCalls := ["toilet"] |}
  /\ processUserQuery
       (Scenario.sources
          [Scenario.restroomB; Scenario.restroomA; Scenario.restroomC])
       Scenario.located "hygienic" =
     Returned {|
       botResponse := "I found 2 highly-rated clean restrooms near you. The top rated is A with a cleanliness score of 90/100. Would you like me to show them on the map?";
       mapCalls := ["clean restrooms"] |}.
Proof.
  split.
  - apply (proj1 (first_match_is_reported
                    (Scenario.sources [Scenario.restroomB; Scenario.restroomA])
                    Scenario.located "toilet"
                    Scenario.restroomB [Scenario.restroomA]));
      reflexivity.
  - apply (proj2 (first_match_is_reported
                    (Scenario.sources
                       [Scenario.restroomB; Scenario.restroomA;
                        Scenario.restroomC])
                    Scenario.located "hygienic"
                    Scenario.restroomA [Scenario.restroomC]));
      reflexivity.
Defined.

(** C8: in each attribute branch a record counts as nearby exactly when it
    passes the attribute test and
    [sqrt((dlat)^2 + (dlng)^2) * 111 <= 3] in binary64 arithmetic, and the
    map is called exactly when some record does; the generic nearby branch
    instead takes what the two data helpers return for a radius of 2. *)
Theorem nearby_radius (src : DataSources) (st : ChatbotState) (a : Attribute) :
  (forall r,
     In r (nearbyOf src st a) <->
     In r (allRestrooms src)
     /\ qualifies a r = true
     /\ (PrimFloat.sqrt
           ((lat (location r) - lat (currentLocation st))
            * (lat (location r) - lat (currentLocation st))
            + (lng (location r) - lng (currentLocation st))
              * (lng (location r) - lng (currentLocation st)))
         * 111 <=? 3)%float = true)
  /\ (forall query reply,
        classify query = intentOf a ->
        hasLocationPermission st = true ->
        processUserQuery src st query = Returned reply ->
        (mapCalls reply = [labelOf a] <-> nearbyOf src st a <> []))
  /\ nearbyRestrooms src st =
     if hasLocationPermission st
     then (getRestroomsByLocation src
             (lat (currentLocation st)) (lng (currentLocation st)) 2
           ++ getNearbyRestrooms src
             (lat (currentLocation st)) (lng (currentLocation st)) 2)%list
     else [].
Proof.
  split; [|split; [|reflexivity]].
  - intros r. rewrite nearbyOf_filter, preFiltered_filter.
    rewrite !filter_In. unfold withinThreeKm, distance, Js.Math_sqrt,
      Js.Math_pow2. tauto.
  - intros query reply C L R.
    rewrite processUserQuery_classify, C in R.
    destruct (attribute_cases src st query a)
      as [[G H]|[(_ & _ & E & H)|(_ & N & t & H & _)]];
      rewrite H in R; injection R as <-; simpl.
    + rewrite L in G. simpl in G. apply empty_nil in G.
      rewrite nearbyOf_filter, G. simpl.
      split; [discriminate | intros N; now elim N].
    + rewrite E. split; [discriminate | intros N; now elim N].
    + split; [intros _; exact N | reflexivity].
Qed.

Lemma nearby_radius_witness :
  mapCalls
    {| botResponse := "I found 1 accessible restrooms near you. Would you like me to show them on the map?";
       mapCalls := ["accessible"] |} = ["accessible"]
  <-> nearbyOf
        (Scenario.sources
           [Scenario.restroomA; Scenario.restroomB; Scenario.restroomC])
        Scenario.located ByAccessibility <> [].
Proof.
  apply (proj1 (proj2 (nearby_radius
                         (Scenario.sources
                            [Scenario.restroomA; Scenario.restroomB;
                             Scenario.restroomC])
                         Scenario.located ByAccessibility))
           "disability access");
    reflexivity.
Defined.

(** The two radii side by side: record C, about 2.5 km away, is found by
    the accessible branch (3 km) and is not among the two records that the
    generic branch gets from a 2 km radius search. *)
Lemma radius_asymmetry_example :
  let src := Scenario.sources
               [Scenario.restroomA; Scenario.restroomB; Scenario.restroomC] in
  nearbyAccessible src Scenario.located = [Scenario.restroomC]
  /\ nearbyRestrooms src Scenario.located
     = [Scenario.restroomA; Scenario.restroomB].
Proof. split; reflexivity. Qed.

(** A query that mentions none of "restroom", "bathroom" and "toilet" but
    mentions "clean" or "hygienic" is served by the clean branch. *)
Lemma classify_clean (query : string) :
  mentions query "restroom" = false ->
  mentions query "bathroom" = false ->
  mentions query "toilet" = false ->
  mentions query "clean" || mentions query "hygienic" = true ->
  classify query = Clean.
Proof.
  intros R B T C. unfold classify. rewrite R, B, T, C. reflexivity.
Qed.

(** Every record that the clean branch counts has a score of 85 or more. *)
Lemma nearbyClean_scores (src : DataSources) (st : ChatbotState) :
  Forall (fun r => (85 <= score (cleanliness r))%Z)
    (nearbyCleanRestrooms src st).
Proof.
  apply Forall_forall. intros r H.
  unfold nearbyCleanRestrooms, cleanRestrooms in H.
  rewrite !filter_In in H. destruct H as [[_ H] _].
  apply Z.geb_le in H. exact H.
Qed.

(** C1, the query of the claim: "find a clean accessible restroom" mentions
    "clean" and "accessible" and is served by the generic nearby branch,
    which counts both records (B has score 70) and passes the raw query to
    the map. *)
Lemma clean_accessible_restroom_is_generic :
  mentions "find a clean accessible restroom" "clean" = true
  /\ mentions "find a clean accessible restroom" "accessible" = true
  /\ classify "find a clean accessible restroom" = NearbyAny
  /\ processUserQuery
       (Scenario.sources [Scenario.restroomA; Scenario.restroomB])
       Scenario.located "find a clean accessible restroom" =
     Returned {|
       botResponse := "I found 2 restrooms near you. The closest is A, which is highly rated for cleanliness. Would you like to see them on the map?";
       mapCalls := ["find a clean accessible restroom"] |}
  /\ processUserQuery
       (Scenario.sources [Scenario.restroomA; Scenario.restroomB])
       Scenario.located "find a clean accessible restroom" <>
     cleanBranch
       (Scenario.sources [Scenario.restroomA; Scenario.restroomB])
       Scenario.located.
Proof.
  repeat split. vm_compute. discriminate.
Qed.

(** C1, amended: a query that mentions "clean" and "accessible" and none of
    "restroom", "bathroom" and "toilet" is served by the clean branch, the
    one with the score filter at 85 and the label "clean restrooms". *)
Theorem clean_before_accessible (src : DataSources) (st : ChatbotState)
  (query : string) :
  mentions query "clean" = true ->
  mentions query "accessible" = true ->
  mentions query "restroom" = false ->
  mentions query "bathroom" = false ->
  mentions query "toilet" = false ->
  classify query = Clean
  /\ processUserQuery src st query = cleanBranch src st
  /\ Forall (fun r => (85 <= score (cleanliness r))%Z)
       (nearbyCleanRestrooms src st)
  /\ exists reply,
       processUserQuery src st query = Returned reply
       /\ (mapCalls reply = [] \/ mapCalls reply = ["clean restrooms"]).
Proof.
  intros C _ R B T.
  assert (K : classify query = Clean).
  { apply classify_clean; auto. rewrite C. reflexivity. }
  split; [exact K|]. rewrite processUserQuery_classify, K.
  split; [reflexivity|]. split; [apply nearbyClean_scores|].
  destruct (attribute_cases src st query ByCleanliness)
    as [[_ H]|[(_ & _ & _ & H)|(_ & _ & t & H & _)]];
    simpl in H; simpl; rewrite H; eexists; (split; [reflexivity|]);
    simpl; auto.
Qed.

Lemma clean_before_accessible_witness :
  classify "Find a CLEAN, accessible place" = Clean
  /\ processUserQuery
       (Scenario.sources [Scenario.restroomA; Scenario.restroomB])
       Scenario.located "Find a CLEAN, accessible place" =
     cleanBranch
       (Scenario.sources [Scenario.restroomA; Scenario.restroomB])
       Scenario.located
  /\ Forall (fun r => (85 <= score (cleanliness r))%Z)
       (nearbyCleanRestrooms
          (Scenario.sources [Scenario.restroomA; Scenario.restroomB])
          Scenario.located)
  /\ exists reply,
       processUserQuery
         (Scenario.sources [Scenario.restroomA; Scenario.restroomB])
         Scenario.located "Find a CLEAN, accessible place" = Returned reply
       /\ (mapCalls reply = [] \/ mapCalls reply = ["clean restrooms"]).
Proof.
  apply (clean_before_accessible
           (Scenario.sources [Scenario.restroomA; Scenario.restroomB])
           Scenario.located "Find a CLEAN, accessible place");
    reflexivity.
Defined.

(** Whatever the data helpers return, a query served by the generic nearby
    branch passes nothing or the raw query to the map. *)
Lemma generic_branch_calls (src : DataSources) (st : ChatbotState)
  (query : string) (reply : Reply) :
  classify query = NearbyAny ->
  processUserQuery src st query = Returned reply ->
  mapCalls reply = [] \/ mapCalls reply = [query].
Proof.
  intros C R. rewrite processUserQuery_classify, C in R. simpl in R.
  destruct (nearbyRestrooms src st) as [|c rest] eqn:E.
  - rewrite nearbyBranch_none in R by exact E.
    injection R as <-. left; reflexivity.
  - rewrite nearbyBranch_found with (c := c) (rest := rest) in R by exact E.
    injection R as <-. right; reflexivity.
Qed.

(** C2, the scenario of the claim: the query contains "restroom", so the
    generic nearby branch answers.  The reply counts both records, does not
    mention "90/100", and the map receives the raw query and not
    "clean restrooms". *)
Lemma clean_restroom_scenario_is_generic :
  processUserQuery
    (Scenario.sources [Scenario.restroomA; Scenario.restroomB])
    Scenario.located "Where can I find a clean restroom?" =
  Returned {|
    botResponse := "I found 2 restrooms near you. The closest is A, which is highly rated for cleanliness. Would you like to see them on the map?";
    mapCalls := ["Where can I find a clean restroom?"] |}
  /\ Js.includes
       "I found 2 restrooms near you. The closest is A, which is highly rated for cleanliness. Would you like to see them on the map?"
       "90/100" = false
  /\ ["Where can I find a clean restroom?"] <> ["clean restrooms"].
Proof.
  repeat split. discriminate.
Qed.

(** C2, amended: for the query "Where can I find a clean restroom?", when
    the 2 km search returns two records, the reply counts 2 restrooms,
    names the first of them as the closest with its cleanliness tier, and
    the map receives the raw query. *)
Theorem clean_restroom_scenario (src : DataSources) (st : ChatbotState)
  (a b : Restroom) :
  nearbyRestrooms src st = [a; b] ->
  processUserQuery src st "Where can I find a clean restroom?" =
  Returned {|
    botResponse :=
      "I found 2 restrooms near you. The closest is " ++ name a
      ++ ", which is "
      ++ cleanlinessText (getCleanlinessTier src (score (cleanliness a)))
      ++ " for cleanliness. Would you like to see them on the map?";
    mapCalls := ["Where can I find a clean restroom?"] |}.
Proof.
  intros E. rewrite processUserQuery_classify.
  change (classify "Where can I find a clean restroom?") with NearbyAny.
  simpl branchOf. rewrite nearbyBranch_found with (c := a) (rest := [b])
    by exact E. reflexivity.
Qed.

Lemma clean_restroom_scenario_witness :
  nearbyRestrooms
    (Scenario.sources [Scenario.restroomA; Scenario.restroomB])
    Scenario.located = [Scenario.restroomA; Scenario.restroomB]
  /\ processUserQuery
       (Scenario.sources [Scenario.restroomA; Scenario.restroomB])
       Scenario.located "Where can I find a clean restroom?" =
     Returned {|
       botResponse :=
         "I found 2 restrooms near you. The closest is "
         ++ name Scenario.restroomA ++ ", which is "
         ++ cleanlinessText
              (getCleanlinessTier
                 (Scenario.sources [Scenario.restroomA; Scenario.restroomB])
                 (score (cleanliness Scenario.restroomA)))
         ++ " for cleanliness. Would you like to see them on the map?";
       mapCalls := ["Where can I find a clean restroom?"] |}.
Proof.
  split; [reflexivity|].
  apply (clean_restroom_scenario
           (Scenario.sources [Scenario.restroomA; Scenario.restroomB])
           Scenario.located Scenario.restroomA Scenario.restroomB).
  reflexivity.
Defined.

(** C3, a query of the claim: "Any HYGIENIC toilet?" mentions "hygienic"
    and is served by the generic nearby branch, whose reply counts and
    names record B, of score 70. *)
Lemma hygienic_toilet_counts_low_score :
  mentions "Any HYGIENIC toilet?" "hygienic" = true
  /\ processUserQuery (Scenario.sources [Scenario.restroomB])
       Scenario.located "Any HYGIENIC toilet?" =
     Returned {|
       botResponse := "I found 1 restrooms near you. The closest is B, which is moderately rated for cleanliness. Would you like to see them on the map?";
       mapCalls := ["Any HYGIENIC toilet?"] |}
  /\ name Scenario.restroomB = "B"
  /\ (score (cleanliness Scenario.restroomB) < 85)%Z.
Proof. repeat split. Qed.

(** C3, amended: for a query that mentions "clean" or "hygienic" and none
    of "restroom", "bathroom" and "toilet", the list that the reply counts
    and names holds exactly the stored records with a score of 85 or more
    that lie within 3 km; the amenity flags play no part. *)
Theorem clean_filter_threshold (src : DataSources) (st : ChatbotState)
  (query : string) :
  mentions query "clean" || mentions query "hygienic" = true ->
  mentions query "restroom" = false ->
  mentions query "bathroom" = false ->
  mentions query "toilet" = false ->
  (forall r,
     In r (nearbyCleanRestrooms src st) <->
     In r (allRestrooms src)
     /\ (85 <= score (cleanliness r))%Z
     /\ withinThreeKm st r = true)
  /\ (forall c rest,
        hasLocationPermission st = true ->
        nearbyCleanRestrooms src st = c :: rest ->
        processUserQuery src st query =
        Returned {|
          botResponse :=
            "I found " ++ Js.lengthToString (length (c :: rest))
            ++ " highly-rated clean restrooms near you. The top rated is "
            ++ name c ++ " with a cleanliness score of "
            ++ Js.integerToString (score (cleanliness c))
            ++ "/100. Would you like me to show them on the map?";
          mapCalls := ["clean restrooms"] |})
  /\ (hasLocationPermission st = false \/ nearbyCleanRestrooms src st = [] ->
      exists text,
        processUserQuery src st query =
        Returned {| botResponse := text; mapCalls := [] |}
        /\ prefix "I found " text = false).
Proof.
  intros C R B T.
  assert (K : classify query = Clean) by now apply classify_clean.
  rewrite processUserQuery_classify, K. simpl branchOf.
  split; [|split].
  - intros r. unfold nearbyCleanRestrooms, cleanRestrooms.
    rewrite !filter_In, Z.geb_le. tauto.
  - intros c rest L E. now apply cleanBranch_found.
  - intros H.
    destruct (attribute_cases src st query ByCleanliness)
      as [[_ G]|[(_ & _ & _ & G)|(L & N & t & G & _)]]; simpl in G.
    + rewrite G. eexists. split; reflexivity.
    + rewrite G. eexists. split; reflexivity.
    + destruct H as [H|H]; [congruence | now elim N].
Qed.

Lemma clean_filter_threshold_witness :
  processUserQuery
    (Scenario.sources [Scenario.restroomB; Scenario.restroomA])
    Scenario.located "somewhere Hygienic, please" =
  Returned {|
    botResponse := "I found 1 highly-rated clean restrooms near you. The top rated is A with a cleanliness score of 90/100. Would you like me to show them on the map?";
    mapCalls := ["clean restrooms"] |}.
Proof.
  apply (proj1 (proj2 (clean_filter_threshold
                         (Scenario.sources
                            [Scenario.restroomB; Scenario.restroomA])
                         Scenario.located "somewhere Hygienic, please"
                         eq_refl eq_refl eq_refl eq_refl))
           Scenario.restroomA []);
    reflexivity.
Defined.

(** C5, the scenario of the claim: "accessible bathroom" with two records,
    neither accessible, both within 2 km.  The query contains "bathroom",
    the generic nearby branch answers: the records are counted and the map
    is called with the raw query. *)
Lemma accessible_bathroom_is_generic :
  Forall (fun r => accessibility r = false)
    [Scenario.restroomA; Scenario.restroomB]
  /\ processUserQuery
       (Scenario.sources [Scenario.restroomA; Scenario.restroomB])
       Scenario.located "accessible bathroom" =
     Returned {|
       botResponse := "I found 2 restrooms near you. The closest is A, which is highly rated for cleanliness. Would you like to see them on the map?";
       mapCalls := ["accessible bathroom"] |}
  /\ asksToExpandRadius
       "I found 2 restrooms near you. The closest is A, which is highly rated for cleanliness. Would you like to see them on the map?"
     = false.
Proof.
  split; [repeat constructor | split; reflexivity].
Qed.

(** C5, amended: with the location permission held, "accessible bathroom"
    is answered by the generic nearby branch, which does not look at the
    accessibility flag: the reply is the generic expand-radius message
    without a map call when the 2 km search returns nothing, and otherwise
    the count of what it returned, with the raw query passed to the map. *)
Theorem accessible_bathroom_generic (src : DataSources) (st : ChatbotState) :
  hasLocationPermission st = true ->
  processUserQuery src st "accessible bathroom" =
  match nearbyRestrooms src st with
  | [] =>
      Returned {|
        botResponse := "I couldn't find any restrooms in your immediate vicinity. Would you like me to expand the search radius?";
        mapCalls := [] |}
  | c :: rest =>
      Returned {|
        botResponse :=
          "I found " ++ Js.lengthToString (length (c :: rest))
          ++ " restrooms near you. The closest is " ++ name c
          ++ ", which is "
          ++ cleanlinessText (getCleanlinessTier src (score (cleanliness c)))
          ++ " for cleanliness. Would you like to see them on the map?";
        mapCalls := ["accessible bathroom"] |}
  end.
Proof.
  intros L. rewrite processUserQuery_classify.
  change (classify "accessible bathroom") with NearbyAny. simpl branchOf.
  destruct (nearbyRestrooms src st) as [|c rest] eqn:E.
  - rewrite nearbyBranch_none by exact E. rewrite L. reflexivity.
  - now apply nearbyBranch_found.
Qed.

Lemma accessible_bathroom_generic_witness :
  processUserQuery (Scenario.sources [Scenario.restroomD])
    Scenario.located "accessible bathroom" =
  Returned {|
    botResponse := "I couldn't find any restrooms in your immediate vicinity. Would you like me to expand the search radius?";
    mapCalls := [] |}.
Proof.
  apply (accessible_bathroom_generic (Scenario.sources [Scenario.restroomD])
           Scenario.located eq_refl).
Defined.

(** * Further properties of the component *)

(** ** White space and [handleSendMessage] *)

Lemma trimStart_blank (s : string) :
  Js.trimStart s = EmptyString <-> allWhiteSpace s = true.
Proof.
  induction s as [|c s IH]; simpl; [tauto|].
  destruct (Js.isWhiteSpace c); simpl; [exact IH|].
  split; discriminate.
Qed.

(** What [trimStart] keeps begins with a unit that is not white space. *)
Lemma trimStart_head (s : string) (c : ascii) (t : string) :
  Js.trimStart s = String c t -> Js.isWhiteSpace c = false.
Proof.
  induction s as [|d s IH]; simpl; [discriminate|].
  destruct (Js.isWhiteSpace d) eqn:W; [exact IH|].
  intros E; injection E as <- _. exact W.
Qed.

Lemma trimEnd_blank (s : string) :
  Js.trimEnd s = EmptyString <-> allWhiteSpace s = true.
Proof.
  induction s as [|c s IH]; simpl; [tauto|].
  destruct (Js.trimEnd s) as [|d t].
  - destruct (Js.isWhiteSpace c); simpl.
    + split; intros _; [apply IH|]; reflexivity.
    + split; discriminate.
  - split; [discriminate|]. intros H.
    apply andb_true_iff in H. destruct H as [_ H].
    apply IH in H. discriminate.
Qed.

Lemma trim_blank (s : string) :
  Js.trim s = EmptyString <-> allWhiteSpace s = true.
Proof.
  unfold Js.trim. rewrite trimEnd_blank.
  destruct (Js.trimStart s) as [|c t] eqn:E.
  - split; intros _; [apply trimStart_blank; exact E | reflexivity].
  - pose proof (trimStart_head _ _ _ E) as W. simpl. rewrite W. simpl.
    split; [discriminate|]. intros H. apply trimStart_blank in H.
    congruence.
Qed.

(** X5: a message is dropped exactly when it consists of white space only
    (or is empty); then neither the transcript nor the input field
    changes. *)
Theorem blank_message_is_dropped (src : DataSources) (st : ChatbotState)
  (input : string) (now : Z) (isoNow : string) :
  (snd (handleSendMessage src st (Some input) now isoNow) = None
   <-> allWhiteSpace input = true)
  /\ (allWhiteSpace input = true ->
      fst (handleSendMessage src st (Some input) now isoNow) = st).
Proof.
  rewrite <- trim_blank. unfold handleSendMessage.
  destruct (Js.trim input) as [|c t]; simpl.
  - split; [split|]; reflexivity.
  - split; [split|]; discriminate.
Qed.

Lemma blank_message_is_dropped_witness :
  fst (handleSendMessage
         (Scenario.sources [Scenario.restroomA]) Scenario.located
         (Some "   ") 0 "2024-01-01T00:00:00.000Z") = Scenario.located.
Proof.
  apply (proj2 (blank_message_is_dropped
                  (Scenario.sources [Scenario.restroomA]) Scenario.located
                  "   " 0 "2024-01-01T00:00:00.000Z")).
  reflexivity.
Defined.

(** X6: once a message has been sent the input field is empty, so
    submitting the form again without typing sends nothing and leaves the
    state as it is. *)
Theorem second_submit_is_ignored (src : DataSources) (st : ChatbotState)
  (arg : option string) (now now' : Z) (isoNow isoNow' : string) :
  snd (handleSendMessage src st arg now isoNow) <> None ->
  handleSendMessage src
    (fst (handleSendMessage src st arg now isoNow)) None now' isoNow'
  = (fst (handleSendMessage src st arg now isoNow), None).
Proof.
  unfold handleSendMessage at 1 3 4.
  destruct (negb (Js.truthy (Js.trim _))); simpl; [intros H; now elim H|].
  intros _. reflexivity.
Qed.

Lemma second_submit_is_ignored_witness :
  handleSendMessage (Scenario.sources [Scenario.restroomA])
    (fst (handleSendMessage (Scenario.sources [Scenario.restroomA])
            Scenario.located (Some "toilet") 1 "t1"))
    None 2 "t2"
  = (fst (handleSendMessage (Scenario.sources [Scenario.restroomA])
            Scenario.located (Some "toilet") 1 "t1"), None).
Proof.
  apply (second_submit_is_ignored (Scenario.sources [Scenario.restroomA])
           Scenario.located (Some "toilet") 1 2 "t1" "t2").
  discriminate.
Defined.

(** X7: a message that is not blank and its reply: the handler returns a
    reply, and once the timer has fired the transcript is the old one
    followed by the user's text as typed and the reply text, in this
    order; location and permission are as before. *)
Theorem send_then_reply (src : DataSources) (st : ChatbotState)
  (input : string) (now now' : Z) (isoNow isoNow' : string) :
  allWhiteSpace input = false ->
  exists reply,
    processUserQuery src st input = Returned reply
    /\ snd (handleSendMessage src st (Some input) now isoNow)
       = Some (Returned reply)
    /\ let st' := showBotMessage
                    (fst (handleSendMessage src st (Some input) now isoNow))
                    (botResponse reply) now' isoNow' in
       messages st' =
       (messages st
        ++ [ {| msgId := "user-" ++ Js.integerToString now;
                content := input; sender := user; timestamp := isoNow |};
             {| msgId := "bot-" ++ Js.integerToString now';
                content := botResponse reply; sender := bot;
                timestamp := isoNow' |} ])%list
       /\ message st' = EmptyString
       /\ currentLocation st' = currentLocation st
       /\ hasLocationPermission st' = hasLocationPermission st.
Proof.
  intros W.
  destruct (processUserQuery_returns src st input) as [reply R].
  exists reply. split; [exact R|].
  assert (T : Js.trim input <> EmptyString).
  { intros E. apply trim_blank in E. congruence. }
  unfold handleSendMessage.
  destruct (Js.trim input); [now elim T|]. simpl.
  rewrite R. repeat split. rewrite <- app_assoc. reflexivity.
Qed.

Lemma send_then_reply_witness :
  exists reply,
    processUserQuery (Scenario.sources [Scenario.restroomA])
      Scenario.located " toilet " = Returned reply
    /\ snd (handleSendMessage (Scenario.sources [Scenario.restroomA])
              Scenario.located (Some " toilet ") 1 "t1")
       = Some (Returned reply)
    /\ let st' := showBotMessage
                    (fst (handleSendMessage
                            (Scenario.sources [Scenario.restroomA])
                            Scenario.located (Some " toilet ") 1 "t1"))
                    (botResponse reply) 2 "t2" in
       messages st' =
       (messages Scenario.located
        ++ [ {| msgId := "user-" ++ Js.integerToString 1;
                content := " toilet "; sender := user; timestamp := "t1" |};
             {| msgId := "bot-" ++ Js.integerToString 2;
                content := botResponse reply; sender := bot;
                timestamp := "t2" |} ])%list
       /\ message st' = EmptyString
       /\ currentLocation st' = currentLocation Scenario.located
       /\ hasLocationPermission st' = hasLocationPermission Scenario.located.
Proof.
  apply (send_then_reply (Scenario.sources [Scenario.restroomA])
           Scenario.located " toilet " 1 2 "t1" "t2").
  reflexivity.
Defined.

(** ** More on [processUserQuery] *)

(** The shape of every reply: either no map call and a text that does not
    begin with "I found ", or one map call, the permission held, a
    non-empty list of matches of the branch, and a text that does. *)
Lemma reply_shape (src : DataSources) (st : ChatbotState) (query : string) :
  exists reply,
    processUserQuery src st query = Returned reply
    /\ ((mapCalls reply = [] /\ prefix "I found " (botResponse reply) = false)
        \/ (mapCalls reply <> []
            /\ prefix "I found " (botResponse reply) = true
            /\ hasLocationPermission st = true
            /\ ((classify query = NearbyAny /\ nearbyRestrooms src st <> [])
                \/ exists a, classify query = intentOf a
                             /\ nearbyOf src st a <> []))).
Proof.
  rewrite processUserQuery_classify.
  assert (A : forall a, classify query = intentOf a ->
    exists reply,
      branchOf src st query (intentOf a) = Returned reply
      /\ ((mapCalls reply = []
           /\ prefix "I found " (botResponse reply) = false)
          \/ (mapCalls reply <> []
              /\ prefix "I found " (botResponse reply) = true
              /\ hasLocationPermission st = true
              /\ ((classify query = NearbyAny /\ nearbyRestrooms src st <> [])
                  \/ exists a, classify query = intentOf a
                               /\ nearbyOf src st a <> [])))).
  { intros a Ca.
    destruct (attribute_cases src st query a)
      as [[_ H]|[(_ & _ & _ & H)|(L & N & t & H & F)]];
      rewrite H; eexists; (split; [reflexivity|]); simpl.
    - left. split; [reflexivity | apply found_is_not_expand].
    - left. split; [reflexivity | apply found_is_not_expand].
    - right. split; [discriminate|]. repeat split; auto.
      right. exists a. split; assumption. }
  destruct (classify query) eqn:C;
    try (apply (A ByCleanliness); reflexivity);
    try (apply (A ByAccessibility); reflexivity);
    try (apply (A ByBabyChanging); reflexivity);
    try (apply (A ByGenderNeutral); reflexivity);
    simpl;
    try (cbv [helpBranch fallbackBranch locationBranch];
         destruct (hasLocationPermission st); eexists;
         (split; [reflexivity|]); left; split; reflexivity).
  destruct (nearbyRestrooms src st) as [|c rest] eqn:E.
  - rewrite nearbyBranch_none by exact E. eexists.
    split; [reflexivity|]. left. simpl.
    destruct (hasLocationPermission st); split; reflexivity.
  - rewrite nearbyBranch_found with (c := c) (rest := rest) by exact E.
    eexists. split; [reflexivity|]. right. simpl.
    split; [discriminate|]. split; [apply (prefix_append "I found ")|].
    split.
    + unfold nearbyRestrooms in E.
      destruct (hasLocationPermission st); [reflexivity | discriminate].
    + left. split; [reflexivity | discriminate].
Qed.

(** X1: the map is called exactly when the reply begins with "I found ",
    that is, when it reports restrooms. *)
Theorem map_called_iff_found (src : DataSources) (st : ChatbotState)
  (query : string) (reply : Reply) :
  processUserQuery src st query = Returned reply ->
  (mapCalls reply <> [] <-> prefix "I found " (botResponse reply) = true).
Proof.
  intros R. destruct (reply_shape src st query) as (r & R' & H).
  rewrite R in R'. injection R' as <-.
  destruct H as [[M P]|(M & P & _)].
  - rewrite M, P. split; [intros N; now elim N | discriminate].
  - rewrite P. split; [reflexivity | intros _; exact M].
Qed.

Lemma map_called_iff_found_witness :
  mapCalls
    {| botResponse := "I found 1 restrooms near you. The closest is A, which is highly rated for cleanliness. Would you like to see them on the map?";
       mapCalls := ["toilet"] |} <> []
  <-> prefix "I found "
        (botResponse
           {| botResponse := "I found 1 restrooms near you. The closest is A, which is highly rated for cleanliness. Would you like to see them on the map?";
              mapCalls := ["toilet"] |}) = true.
Proof.
  apply (map_called_iff_found (Scenario.sources [Scenario.restroomA])
           Scenario.located "toilet").
  reflexivity.
Defined.

(** X2: a map call is made only with the location permission held and with
    at least one match in the list of the branch that answered: the 2 km
    helper results for the generic branch, the 3 km attribute list for an
    attribute branch. *)
Theorem map_call_needs_match (src : DataSources) (st : ChatbotState)
  (query : string) (reply : Reply) :
  processUserQuery src st query = Returned reply ->
  mapCalls reply <> [] ->
  hasLocationPermission st = true
  /\ ((classify query = NearbyAny /\ nearbyRestrooms src st <> [])
      \/ exists a, classify query = intentOf a /\ nearbyOf src st a <> []).
Proof.
  intros R N. destruct (reply_shape src st query) as (r & R' & H).
  rewrite R in R'. injection R' as <-.
  destruct H as [[M _]|(_ & _ & L & H)]; [now elim N | split; assumption].
Qed.

Lemma map_call_needs_match_witness :
  hasLocationPermission Scenario.located = true
  /\ ((classify "baby" = NearbyAny
       /\ nearbyRestrooms (Scenario.sources [Scenario.restroomD])
            Scenario.located <> [])
      \/ exists a, classify "baby" = intentOf a
                   /\ nearbyOf (Scenario.sources [Scenario.restroomD])
                        Scenario.located a <> []).
Proof.
  apply (map_call_needs_match (Scenario.sources [Scenario.restroomD])
           Scenario.located "baby"
           {| botResponse := "I found 1 restrooms with baby changing facilities near you. Would you like me to show them on the map?";
              mapCalls := ["baby changing"] |}).
  - reflexivity.
  - discriminate.
Defined.

Lemma toLowerCaseUnit_idempotent (c : ascii) :
  Js.toLowerCaseUnit (Js.toLowerCaseUnit c) = Js.toLowerCaseUnit c.
Proof.
  destruct c as [[] [] [] [] [] [] [] []]; reflexivity.
Qed.

Lemma toLowerCase_idempotent (s : string) :
  Js.toLowerCase (Js.toLowerCase s) = Js.toLowerCase s.
Proof.
  induction s as [|c s IH]; simpl; [reflexivity|].
  rewrite toLowerCaseUnit_idempotent, IH. reflexivity.
Qed.

Lemma classify_lower (q1 q2 : string) :
  Js.toLowerCase q1 = Js.toLowerCase q2 -> classify q1 = classify q2.
Proof. intros H. unfold classify, mentions. rewrite H. reflexivity. Qed.

(** Two queries served by the generic branch get the same text, and the
    map is called for both or for neither. *)
Lemma nearbyBranch_text (src : DataSources) (st : ChatbotState)
  (q1 q2 : string) :
  exists r1 r2,
    nearbyBranch src st q1 = Returned r1
    /\ nearbyBranch src st q2 = Returned r2
    /\ botResponse r1 = botResponse r2
    /\ length (mapCalls r1) = length (mapCalls r2).
Proof.
  destruct (nearbyRestrooms src st) as [|c rest] eqn:E.
  - rewrite !nearbyBranch_none by exact E.
    do 2 eexists. repeat split.
  - rewrite !nearbyBranch_found with (c := c) (rest := rest) by exact E.
    do 2 eexists. repeat split.
Qed.

(** X3: the reply does not depend on the case of the query: two queries
    with the same lower-cased form get the same text and the same number
    of map calls, and outside the generic branch (which passes the query
    itself to the map) the same reply altogether. *)
Theorem reply_ignores_case (src : DataSources) (st : ChatbotState)
  (q1 q2 : string) (r1 r2 : Reply) :
  Js.toLowerCase q1 = Js.toLowerCase q2 ->
  processUserQuery src st q1 = Returned r1 ->
  processUserQuery src st q2 = Returned r2 ->
  botResponse r1 = botResponse r2
  /\ length (mapCalls r1) = length (mapCalls r2)
  /\ (classify q1 <> NearbyAny -> r1 = r2).
Proof.
  intros H R1 R2. apply classify_lower in H.
  rewrite processUserQuery_classify in R1, R2. rewrite <- H in R2.
  destruct (classify q1) eqn:C;
    try (simpl in R1, R2; rewrite R1 in R2; injection R2 as <-;
         repeat split; reflexivity).
  simpl in R1, R2.
  destruct (nearbyBranch_text src st q1 q2) as (a & b & A & B & T & N).
  rewrite A in R1. rewrite B in R2.
  injection R1 as <-. injection R2 as <-.
  repeat split; auto. intros X; now elim X.
Qed.

Lemma reply_ignores_case_witness :
  botResponse
    {| botResponse := "I found 1 restrooms near you. The closest is A, which is highly rated for cleanliness. Would you like to see them on the map?";
       mapCalls := ["Any TOILET?"] |}
  = botResponse
      {| botResponse := "I found 1 restrooms near you. The closest is A, which is highly rated for cleanliness. Would you like to see them on the map?";
         mapCalls := ["any toilet?"] |}
  /\ length (mapCalls
       {| botResponse := "I found 1 restrooms near you. The closest is A, which is highly rated for cleanliness. Would you like to see them on the map?";
          mapCalls := ["Any TOILET?"] |})
     = length (mapCalls
         {| botResponse := "I found 1 restrooms near you. The closest is A, which is highly rated for cleanliness. Would you like to see them on the map?";
            mapCalls := ["any toilet?"] |})
  /\ (classify "Any TOILET?" <> NearbyAny ->
      {| botResponse := "I found 1 restrooms near you. The closest is A, which is highly rated for cleanliness. Would you like to see them on the map?";
         mapCalls := ["Any TOILET?"] |}
      = {| botResponse := "I found 1 restrooms near you. The closest is A, which is highly rated for cleanliness. Would you like to see them on the map?";
           mapCalls := ["any toilet?"] |}).
Proof.
  apply (reply_ignores_case (Scenario.sources [Scenario.restroomA])
           Scenario.located "Any TOILET?" "any toilet?");
    reflexivity.
Defined.

(** X4: in the clean branch the built-in records come before the
    user-submitted ones: when a built-in record has a score of 85 or more
    and lies within 3 km, the record named as top rated is a built-in one,
    and the count is the sum of the matches in the two stores. *)
Theorem catalogue_before_submissions (src : DataSources) (st : ChatbotState)
  (query : string) (r : Restroom) :
  classify query = Clean ->
  hasLocationPermission st = true ->
  In r (getAllRestrooms src) ->
  (85 <= score (cleanliness r))%Z ->
  withinThreeKm st r = true ->
  exists c rest,
    In c (getAllRestrooms src)
    /\ nearbyCleanRestrooms src st = c :: rest
    /\ processUserQuery src st query =
       Returned {|
         botResponse :=
           "I found " ++ Js.lengthToString (length (c :: rest))
           ++ " highly-rated clean restrooms near you. The top rated is "
           ++ name c ++ " with a cleanliness score of "
           ++ Js.integerToString (score (cleanliness c))
           ++ "/100. Would you like me to show them on the map?";
         mapCalls := ["clean restrooms"] |}
    /\ length (c :: rest) =
       (length (filter (fun x => (score (cleanliness x) >=? 85)%Z
                                 && withinThreeKm st x)
                  (getAllRestrooms src))
        + length (filter (fun x => (score (cleanliness x) >=? 85)%Z
                                   && withinThreeKm st x)
                    (getUserRestrooms src)))%nat.
Proof.
  intros C L I S W.
  set (f := fun x => (score (cleanliness x) >=? 85)%Z && withinThreeKm st x).
  assert (E : nearbyCleanRestrooms src st =
              (filter f (getAllRestrooms src)
               ++ filter f (getUserRestrooms src))%list).
  { unfold nearbyCleanRestrooms, cleanRestrooms, allRestrooms.
    rewrite filter_twice, filter_app. reflexivity. }
  assert (F : In r (filter f (getAllRestrooms src))).
  { apply filter_In. split; [exact I|]. unfold f.
    apply Z.geb_le in S. rewrite S, W. reflexivity. }
  destruct (filter f (getAllRestrooms src)) as [|c front] eqn:G;
    [destruct F|].
  exists c, (front ++ filter f (getUserRestrooms src))%list.
  assert (Ic : In c (getAllRestrooms src)).
  { assert (H : In c (filter f (getAllRestrooms src)))
      by (rewrite G; left; reflexivity).
    apply filter_In in H. tauto. }
  split; [exact Ic|]. split; [exact E|]. split.
  - rewrite processUserQuery_classify, C. simpl branchOf.
    now apply cleanBranch_found.
  - simpl. rewrite length_app. reflexivity.
Qed.

Lemma catalogue_before_submissions_witness :
  exists c rest,
    In c [Scenario.restroomA]
    /\ nearbyCleanRestrooms
         {| getAllRestrooms := [Scenario.restroomA];
            getUserRestrooms := [Scenario.restroomC];
            getRestroomsByLocation := Scenario.withinRadius [Scenario.restroomA];
            getNearbyRestrooms := Scenario.withinRadius [Scenario.restroomC];
            getCleanlinessTier := Scenario.tierOf |}
         Scenario.located = c :: rest
    /\ name c = "A" /\ length (c :: rest) = 2%nat.
Proof.
  destruct (catalogue_before_submissions
              {| getAllRestrooms := [Scenario.restroomA];
                 getUserRestrooms := [Scenario.restroomC];
                 getRestroomsByLocation :=
                   Scenario.withinRadius [Scenario.restroomA];
                 getNearbyRestrooms :=
                   Scenario.withinRadius [Scenario.restroomC];
                 getCleanlinessTier := Scenario.tierOf |}
              Scenario.located "hygienic" Scenario.restroomA
              eq_refl eq_refl (or_introl eq_refl))
    as (c & rest & I & E & _ & N).
  - vm_compute. discriminate.
  - reflexivity.
  - exists c, rest. split; [exact I|]. split; [exact E|].
    split; [|exact N].
    destruct I as [<-|[]]. reflexivity.
Defined.

(** ** Substring matching *)

Lemma append_assoc (a b c : string) : (a ++ b) ++ c = a ++ b ++ c.
Proof.
  induction a as [|x a IH]; simpl; [reflexivity | rewrite IH; reflexivity].
Qed.

Lemma toLowerCase_append (a b : string) :
  Js.toLowerCase (a ++ b) = Js.toLowerCase a ++ Js.toLowerCase b.
Proof.
  induction a as [|x a IH]; simpl; [reflexivity | rewrite IH; reflexivity].
Qed.

(** A keyword found in a query is found in every text around the query. *)
Lemma mentions_in_context (before query after keyword : string) :
  mentions query keyword = true ->
  mentions (before ++ query ++ after) keyword = true.
Proof.
  rewrite !mentions_occurs. intros (front & rest & H).
  exists (Js.toLowerCase before ++ front), (rest ++ Js.toLowerCase after).
  rewrite !toLowerCase_append, H, !append_assoc. reflexivity.
Qed.

(** X8: keywords are matched as substrings and the generic test comes
    first, so a query served by the generic nearby branch is still served
    by it with any text put before and after: the reply text is the same
    and the map is called for both or for neither. *)
Theorem generic_intent_in_context (src : DataSources) (st : ChatbotState)
  (before query after : string) :
  classify query = NearbyAny ->
  classify (before ++ query ++ after) = NearbyAny
  /\ exists r r',
       processUserQuery src st query = Returned r
       /\ processUserQuery src st (before ++ query ++ after) = Returned r'
       /\ botResponse r = botResponse r'
       /\ length (mapCalls r) = length (mapCalls r').
Proof.
  intros C.
  assert (K : classify (before ++ query ++ after) = NearbyAny).
  { unfold classify in C.
    destruct (mentions query "restroom" || mentions query "bathroom"
              || mentions query "toilet") eqn:M.
    - unfold classify.
      apply orb_true_iff in M. destruct M as [M|M];
        [apply orb_true_iff in M; destruct M as [M|M]|];
        apply (mentions_in_context before query after) in M;
        rewrite M, ?orb_true_r; reflexivity.
    - repeat match type of C with
             | (if ?b then _ else _) = _ => destruct b
             end; discriminate. }
  split; [exact K|].
  rewrite !processUserQuery_classify, C, K. simpl.
  apply nearbyBranch_text.
Qed.

Lemma generic_intent_in_context_witness :
  classify ("is the " ++ "Toilet" ++ " clean and accessible?") = NearbyAny
  /\ exists r r',
       processUserQuery (Scenario.sources [Scenario.restroomB])
         Scenario.located "Toilet" = Returned r
       /\ processUserQuery (Scenario.sources [Scenario.restroomB])
            Scenario.located
            ("is the " ++ "Toilet" ++ " clean and accessible?") = Returned r'
       /\ botResponse r = botResponse r'
       /\ length (mapCalls r) = length (mapCalls r').
Proof.
  apply (generic_intent_in_context (Scenario.sources [Scenario.restroomB])
           Scenario.located "is the " "Toilet" " clean and accessible?").
  reflexivity.
Defined.

(** ** The conversation as a whole *)

Lemma sentBy_app (who : Sender) (a b : list ChatMessage) :
  sentBy who (a ++ b) = (sentBy who a + sentBy who b)%nat.
Proof. unfold sentBy. rewrite filter_app, length_app. reflexivity. Qed.

Lemma sentBy_one (who : Sender) (m : ChatMessage) :
  sentBy who [m] = match who, sender m with
                   | user, user | bot, bot => 1%nat
                   | _, _ => 0%nat
                   end.
Proof. unfold sentBy. simpl. destruct who, (sender m); reflexivity. Qed.

Lemma run_cons (src : DataSources) (c : Conversation) (e : Event)
  (events : list Event) :
  run src c (e :: events) = run src (step src c e) events.
Proof. reflexivity. Qed.

(** One event extends the transcript and keeps the balance between
    messages sent, replies shown and replies waiting for their timer. *)
Lemma step_balance (src : DataSources) (c : Conversation) (e : Event) :
  (exists added,
     messages (chat (step src c e)) = (messages (chat c) ++ added)%list)
  /\ (sentBy bot (messages (chat (step src c e)))
      + length (pendingReplies (step src c e))
      + sentBy user (messages (chat c))
      = sentBy bot (messages (chat c))
        + length (pendingReplies c)
        + sentBy user (messages (chat (step src c e))))%nat.
Proof.
  destruct e as [la lo| |value|now isoNow|now isoNow]; simpl;
    try (split; [exists []; rewrite app_nil_r; reflexivity | lia]).
  - unfold handleSendMessage.
    destruct (negb (Js.truthy (Js.trim (message (chat c))))).
    + split; [exists []; rewrite app_nil_r; reflexivity | lia].
    + destruct (processUserQuery_returns src (chat c) (message (chat c)))
        as [reply R]. rewrite R. simpl. split.
      * eexists. reflexivity.
      * rewrite !sentBy_app, !sentBy_one, length_app. simpl. lia.
  - destruct (pendingReplies c) as [|text rest] eqn:P; simpl; rewrite ?P;
      simpl.
    + split; [exists []; rewrite app_nil_r; reflexivity | lia].
    + split; [eexists; reflexivity|].
      rewrite !sentBy_app, !sentBy_one. simpl. lia.
Qed.

(** X9: whatever events arrive, the transcript only grows at its end, and
    every message sent has exactly one reply, shown or waiting for its
    timer: the replies shown and waiting grow by the number of messages
    sent. *)
Theorem every_message_gets_one_reply (src : DataSources) (c : Conversation)
  (events : list Event) :
  (exists added,
     messages (chat (run src c events)) = (messages (chat c) ++ added)%list)
  /\ (sentBy bot (messages (chat (run src c events)))
      + length (pendingReplies (run src c events))
      + sentBy user (messages (chat c))
      = sentBy bot (messages (chat c))
        + length (pendingReplies c)
        + sentBy user (messages (chat (run src c events))))%nat.
Proof.
  revert c. induction events as [|e events IH]; intros c.
  - simpl. split; [exists []; rewrite app_nil_r; reflexivity | lia].
  - rewrite run_cons.
    destruct (IH (step src c e)) as [[a2 A2] B2].
    destruct (step_balance src c e) as [[a1 A1] B1].
    split.
    + exists (a1 ++ a2)%list. rewrite A2, A1, app_assoc. reflexivity.
    + lia.
Qed.

Lemma step_without_position (src : DataSources) (c : Conversation)
  (e : Event) :
  hasLocationPermission (chat c) = false ->
  bringsPosition e = false ->
  mapLog (step src c e) = mapLog c
  /\ hasLocationPermission (chat (step src c e)) = false.
Proof.
  intros L B.
  destruct e as [la lo| |value|now isoNow|now isoNow]; simpl;
    try discriminate; try (split; [reflexivity | exact L]).
  - unfold handleSendMessage.
    destruct (negb (Js.truthy (Js.trim (message (chat c))))).
    + split; [reflexivity | exact L].
    + destruct (reply_shape src (chat c) (message (chat c)))
        as (reply & R & H). rewrite R. simpl.
      destruct H as [[M _]|(_ & _ & L' & _)]; [|congruence].
      rewrite M, app_nil_r. split; [reflexivity | exact L].
  - destruct (pendingReplies c); simpl; split; auto.
Qed.

(** X10: as long as no position has been received, no message that is
    typed and sent makes a map call, whatever the user asks and whatever
    the stores hold. *)
Theorem no_position_no_map_call (src : DataSources) (c : Conversation)
  (events : list Event) :
  hasLocationPermission (chat c) = false ->
  forallb (fun e => negb (bringsPosition e)) events = true ->
  mapLog (run src c events) = mapLog c
  /\ hasLocationPermission (chat (run src c events)) = false.
Proof.
  revert c. induction events as [|e events IH]; intros c L F.
  - split; [reflexivity | exact L].
  - simpl in F. apply andb_true_iff in F. destruct F as [B F].
    apply negb_true_iff in B.
    destruct (step_without_position src c e L B) as [M L'].
    rewrite run_cons. destruct (IH (step src c e) L' F) as [M' L''].
    split; [congruence | exact L''].
Qed.

Lemma no_position_no_map_call_witness :
  mapLog
    (run (Scenario.sources [Scenario.restroomA; Scenario.restroomB])
       {| chat := initialState Scenario.userLocation "t0";
          pendingReplies := []; mapLog := [] |}
       [PositionDenied; InputChanged "nearest toilet";
        FormSubmitted 1 "t1"; ReplyTimerFired 2 "t2";
        InputChanged "clean"; FormSubmitted 3 "t3"]) = []
  /\ hasLocationPermission
       (chat
          (run (Scenario.sources [Scenario.restroomA; Scenario.restroomB])
             {| chat := initialState Scenario.userLocation "t0";
                pendingReplies := []; mapLog := [] |}
             [PositionDenied; InputChanged "nearest toilet";
              FormSubmitted 1 "t1"; ReplyTimerFired 2 "t2";
              InputChanged "clean"; FormSubmitted 3 "t3"])) = false.
Proof.
  apply (no_position_no_map_call
           (Scenario.sources [Scenario.restroomA; Scenario.restroomB])
           {| chat := initialState Scenario.userLocation "t0";
              pendingReplies := []; mapLog := [] |}
           [PositionDenied; InputChanged "nearest toilet";
            FormSubmitted 1 "t1"; ReplyTimerFired 2 "t2";
            InputChanged "clean"; FormSubmitted 3 "t3"]);
    reflexivity.
Defined.

(** ** Spoken queries and the microphone *)

(** X11: a spoken query never makes a map call and never reports found
    restrooms, even after the location permission has been granted: the
    recognizer's callback runs the [processUserQuery] of the first render,
    where the permission is not held. *)
Theorem spoken_query_never_calls_map (src : DataSources)
  (defaultLocation : Location) (mountTime : string) (st : ChatbotState)
  (v : VoiceState) (transcript : string) (now : Z) (isoNow : string)
  (reply : Reply) :
  snd (onResultTimer src (initialState defaultLocation mountTime) st v
         transcript now isoNow) = Some (Returned reply) ->
  mapCalls reply = []
  /\ prefix "I found " (botResponse reply) = false.
Proof.
  unfold onResultTimer.
  destruct (negb (Js.truthy (Js.trim transcript))); simpl; [discriminate|].
  intros R. injection R as R.
  destruct (reply_shape src (initialState defaultLocation mountTime)
              transcript) as (r & R' & H).
  rewrite R in R'. injection R' as <-.
  destruct H as [H|(_ & _ & L & _)]; [exact H | discriminate].
Qed.

Lemma spoken_query_never_calls_map_witness :
  mapCalls
    {| botResponse := "I'd like to find restrooms near you, but I need permission to access your location. Please enable location services and try again.";
       mapCalls := [] |} = []
  /\ prefix "I found "
       (botResponse
          {| botResponse := "I'd like to find restrooms near you, but I need permission to access your location. Please enable location services and try again.";
             mapCalls := [] |}) = false.
Proof.
  apply (spoken_query_never_calls_map
           (Scenario.sources [Scenario.restroomA; Scenario.restroomB])
           Scenario.userLocation "t0" Scenario.located
           {| isListening := true; recognitionRef := true |}
           "nearest toilet" 1 "t1").
  reflexivity.
Defined.

(** The same words typed, with the permission held, are answered with the
    records found and a map call. *)
Lemma typed_query_example :
  snd (handleSendMessage
         (Scenario.sources [Scenario.restroomA; Scenario.restroomB])
         Scenario.located (Some "nearest toilet") 1 "t1") =
  Some (Returned {|
    botResponse := "I found 2 restrooms near you. The closest is A, which is highly rated for cleanliness. Would you like to see them on the map?";
    mapCalls := ["nearest toilet"] |}).
Proof. reflexivity. Qed.

(** X12: in a browser without speech recognition the microphone button
    never starts listening: every click leaves the state as it is and
    shows the same error notice, and nothing else happens. *)
Theorem microphone_without_recognizer (clicks : list bool) :
  voiceRun {| isListening := false; recognitionRef := false |}
    (map MicClicked clicks)
  = ({| isListening := false; recognitionRef := false |},
     repeat
       (ToastError "Speech recognition is not supported in your browser.")
       (length clicks)).
Proof.
  induction clicks as [|b clicks IH]; simpl; [reflexivity|].
  rewrite IH. reflexivity.
Qed.

Lemma voiceStep_guard (v : VoiceState) (e : VoiceEvent) :
  (isListening v = true -> recognitionRef v = true) ->
  recognitionRef (fst (voiceStep v e)) = recognitionRef v
  /\ (isListening (fst (voiceStep v e)) = true ->
      recognitionRef (fst (voiceStep v e)) = true)
  /\ (forall x, In x (snd (voiceStep v e)) ->
      x = RecognitionStart \/ x = RecognitionAbort ->
      recognitionRef v = true).
Proof.
  intros G. destruct e as [b| | |]; simpl.
  - unfold toggleListening.
    destruct (isListening v) eqn:I; simpl.
    + repeat split; try discriminate.
      intros x H _. destruct (recognitionRef v); [reflexivity | destruct H].
    + destruct (recognitionRef v) eqn:Rf; simpl.
      * destruct b; simpl; repeat split; auto.
      * repeat split; auto; try congruence.
        intros x [<-|[]] [H|H]; discriminate.
  - repeat split; try discriminate.
    intros x [<-|[<-|[]]] [H|H]; discriminate.
  - repeat split; try discriminate. intros x [].
  - repeat split; try discriminate. intros x [].
Qed.

(** X13: the recognizer is started or aborted only when there is one, and
    the microphone is never in the listening state without one, whatever
    clicks and recognizer events arrive. *)
Theorem recognizer_used_only_when_present (v : VoiceState)
  (events : list VoiceEvent) :
  (isListening v = true -> recognitionRef v = true) ->
  recognitionRef (fst (voiceRun v events)) = recognitionRef v
  /\ (isListening (fst (voiceRun v events)) = true ->
      recognitionRef v = true)
  /\ (forall x, In x (snd (voiceRun v events)) ->
      x = RecognitionStart \/ x = RecognitionAbort ->
      recognitionRef v = true).
Proof.
  revert v. induction events as [|e events IH]; intros v G; simpl.
  - repeat split; auto; intros x [].
  - destruct (voiceStep_guard v e G) as (K & G' & S).
    destruct (voiceStep v e) as [v1 out1] eqn:E1. simpl in K, G', S.
    destruct (IH v1 G') as (K' & G'' & S').
    destruct (voiceRun v1 events) as [v2 out2] eqn:E2. simpl in *.
    split; [congruence|]. split.
    + intros H. rewrite <- K. apply G''. exact H.
    + intros x H X. apply in_app_or in H. destruct H as [H|H].
      * now apply (S x).
      * rewrite <- K. now apply (S' x).
Qed.

Lemma recognizer_used_only_when_present_witness :
  recognitionRef
    (fst (voiceRun {| isListening := false; recognitionRef := true |}
            [MicClicked false; RecognitionEnded; MicClicked true;
     MicClicked false; MicClicked false]))
  = recognitionRef {| isListening := false; recognitionRef := true |}
  /\ (isListening
        (fst (voiceRun {| isListening := false; recognitionRef := true |}
                [MicClicked false; RecognitionEnded; MicClicked true;
     MicClicked false; MicClicked false])) = true ->
      recognitionRef {| isListening := false; recognitionRef := true |} = true)
  /\ (forall x,
        In x (snd (voiceRun {| isListening := false; recognitionRef := true |}
                     [MicClicked false; RecognitionEnded; MicClicked true;
     MicClicked false; MicClicked false])) ->
        x = RecognitionStart \/ x = RecognitionAbort ->
        recognitionRef {| isListening := false; recognitionRef := true |} = true).
Proof.
  apply (recognizer_used_only_when_present
           {| isListening := false; recognitionRef := true |}
           [MicClicked false; RecognitionEnded; MicClicked true;
     MicClicked false; MicClicked false]).
  discriminate.
Defined.

Lemma step_keeps_position (src : DataSources) (c : Conversation) (e : Event) :
  (hasLocationPermission (chat c) = true ->
   hasLocationPermission (chat (step src c e)) = true)
  /\ (bringsPosition e = false ->
      currentLocation (chat (step src c e)) = currentLocation (chat c)
      /\ hasLocationPermission (chat (step src c e))
         = hasLocationPermission (chat c)).
Proof.
  destruct e as [la lo| |value|now isoNow|now isoNow]; simpl;
    try (split; [auto | intros; try discriminate; split; reflexivity]).
  - unfold handleSendMessage.
    destruct (negb (Js.truthy (Js.trim (message (chat c))))).
    + split; [auto | intros; split; reflexivity].
    + destruct (processUserQuery src (chat c) (message (chat c)));
        simpl; (split; [auto | intros; split; reflexivity]).
  - destruct (pendingReplies c); simpl;
      (split; [auto | intros; split; reflexivity]).
Qed.

(** X14: the location permission, once held, is never given up, and the
    stored location and the permission change only when a position
    arrives: typing, sending, replies and a refused position request leave
    both as they are. *)
Theorem position_changes_only_on_fix (src : DataSources) (c : Conversation)
  (events : list Event) :
  (hasLocationPermission (chat c) = true ->
   hasLocationPermission (chat (run src c events)) = true)
  /\ (forallb (fun e => negb (bringsPosition e)) events = true ->
      currentLocation (chat (run src c events)) = currentLocation (chat c)
      /\ hasLocationPermission (chat (run src c events))
         = hasLocationPermission (chat c)).
Proof.
  revert c. induction events as [|e events IH]; intros c.
  - split; [auto | intros _; split; reflexivity].
  - rewrite run_cons. destruct (IH (step src c e)) as [P Q].
    destruct (step_keeps_position src c e) as [P1 Q1].
    split; [auto|]. simpl. intros F.
    apply andb_true_iff in F. destruct F as [B F].
    apply negb_true_iff in B.
    destruct (Q F) as [L H]. destruct (Q1 B) as [L1 H1].
    split; congruence.
Qed.

Lemma position_changes_only_on_fix_witness :
  hasLocationPermission
    (chat (run (Scenario.sources [])
      {| chat := onPosition (initialState Scenario.userLocation "t0")
                 11.02 76.96;
       pendingReplies := []; mapLog := [] |}
      [InputChanged "where am i"; FormSubmitted 1 "t1";
       PositionDenied; ReplyTimerFired 2 "t2"])) = true
  /\ currentLocation
       (chat (run (Scenario.sources [])
         {| chat := onPosition (initialState Scenario.userLocation "t0")
                 11.02 76.96;
       pendingReplies := []; mapLog := [] |}
         [InputChanged "where am i"; FormSubmitted 1 "t1";
       PositionDenied; ReplyTimerFired 2 "t2"]))
     = currentLocation
         (chat
            {| chat := onPosition (initialState Scenario.userLocation "t0")
                 11.02 76.96;
       pendingReplies := []; mapLog := [] |}).
Proof.
  destruct (position_changes_only_on_fix (Scenario.sources [])
      {| chat := onPosition (initialState Scenario.userLocation "t0")
                 11.02 76.96;
       pendingReplies := []; mapLog := [] |}
      [InputChanged "where am i"; FormSubmitted 1 "t1";
       PositionDenied; ReplyTimerFired 2 "t2"])
    as [P Q].
  split; [apply P; reflexivity | apply Q; reflexivity].
Defined.
